(** * PaddleDTX: the vertical logistic-regression Learner and [PadStart]

    A shallow embedding of two pieces of the repository:

    - [crypto.PadStart] (left padding of a byte slice with zero bytes);
    - the message-driven state machine of [logic_reg_vl.Learner]:
      [Advance], [advance], [sendMessage], [sendMessageWithRetry],
      [NewLearner] and the goroutines they start.

    Collaborators that the Learner only reaches through an interface or whose
    code is in another package (the PSI engine, the training [process], the
    RPC handler, protobuf's [Marshal]/[Unmarshal]) are parameters of the
    development: records of state-passing operations.  The result handler is
    modelled by the list of results it has been given.

    Concurrency.  Every [go] statement puts a goroutine in a pool; a run is a
    sequence of events, each of which is either a payload handed to [Advance]
    by the transport or one waiting goroutine, chosen freely, run to its end.
    A call of [advance] is therefore one atomic step: the runs of the model
    are the interleavings of the program in which calls do not overlap, and
    what two overlapping calls could do to each other's reads of
    [status] and [loopRound] is not modelled. *)

From Stdlib Require Import ZArith List String Bool Lia.
From Stdlib.Strings Require Import Byte.
Import ListNotations.

(** Go's [[]byte]. *)
Definition bytes := list byte.

(* ===================================================================== *)
(** ** crypto.PadStart *)
(* ===================================================================== *)

Module Crypto.

(** [make([]byte, n, cap)]: [n] zero bytes. *)
Definition make_zero (n : Z) : bytes := repeat x00 (Z.to_nat n).

(** [len(s)] as a Go [int]. *)
Definition len (s : bytes) : Z := Z.of_nat (List.length s).

(** [func PadStart(s []byte, newLen int) []byte] *)
Definition PadStart (s : bytes) (newLen : Z) : bytes :=
  if (len s >=? newLen)%Z then s
  else
    let t := make_zero (newLen - len s) in
    t ++ s.

(** The number a byte slice stands for when read big-endian, as
    [big.Int.SetBytes] reads it. *)
Definition bigEndian (s : bytes) : Z :=
  fold_left (fun acc b => (acc * 256 + Z.of_N (Byte.to_N b))%Z) s 0%Z.

End Crypto.

(* ===================================================================== *)
(** ** logic_reg_vl: data *)
(* ===================================================================== *)

Module LogicRegVl.

Local Open Scope string_scope.

(** Error codes of package [errcodes] used by the Learner; errors produced by
    the collaborators carry codes of their own. *)
Inductive errcode :=
| ErrCodeParam
| ErrCodeInternal
| ErrCodeOf (name : string).

(** A Go [error] built by [errorx.New(code, format, args...)]: a code and the
    formatted message.  [Error] is the [err.Error()] rendering. *)
Record error := errorx_New { ErrCode : errcode; ErrMessage : string }.

Definition Error (e : error) : string := ErrMessage e.

(** [learnerStatusType] *)
Inductive learnerStatusType :=
| learnerStatusStartPSI
| learnerStatusEndPSI
| learnerStatusStartTrain
| learnerStatusEndTrain.

(** The [iota] value of a status. *)
Definition status_rank (s : learnerStatusType) : nat :=
  match s with
  | learnerStatusStartPSI => 0
  | learnerStatusEndPSI => 1
  | learnerStatusStartTrain => 2
  | learnerStatusEndTrain => 3
  end.

Definition status_eqb (a b : learnerStatusType) : bool :=
  Nat.eqb (status_rank a) (status_rank b).

(** [pbLogicRegVl.MessageType]: a protobuf enum, that is an [int32]; the
    constants used by [advance] plus every other discriminator value. *)
Inductive MessageType :=
| MessageType_MsgPsiEnc
| MessageType_MsgPsiAskReEnc
| MessageType_MsgPsiReEnc
| MessageType_MsgPsiIntersect
| MessageType_MsgTrainHup
| MessageType_MsgHomoPubkey
| MessageType_MsgTrainLoop
| MessageType_MsgTrainCalLocalGradCost
| MessageType_MsgTrainPartBytes
| MessageType_MsgTrainCalEncGradCost
| MessageType_MsgTrainEncGradCost
| MessageType_MsgTrainDecLocalGradCost
| MessageType_MsgTrainGradAndCost
| MessageType_MsgTrainUpdCostGrad
| MessageType_MsgTrainStatus
| MessageType_MsgTrainCheckStatus
| MessageType_MsgTrainModels
| MessageType_Unlisted (discriminator : Z).

Record VLPsiReEncIDsRequest := {
  req_TaskID : string;
  EncIDs : bytes
}.

Record VLPsiReEncIDsResponse := {
  resp_TaskID : string;
  ReEncIDs : bytes
}.

(** [pbLogicRegVl.Message]: the fields [advance] and [sendMessage] touch.
    The two sub-messages are pointers, [None] is [nil]. *)
Record Message := {
  MsgType : MessageType;
  To : string;
  From : string;
  LoopRound : Z;
  VlLPsiReEncIDsReq : option VLPsiReEncIDsRequest;
  VlLPsiReEncIDsResp : option VLPsiReEncIDsResponse;
  HomoPubkey : bytes;
  PartBytes : bytes;
  EncGradFromOther : bytes;
  EncCostFromOther : bytes;
  GradBytes : bytes;
  CostBytes : bytes;
  Stopped : bool
}.

(** [&pbLogicRegVl.Message{Type: t}]: every other field has its zero value. *)
Definition newMessage (t : MessageType) : Message :=
  {| MsgType := t; To := ""; From := ""; LoopRound := 0%Z;
     VlLPsiReEncIDsReq := None; VlLPsiReEncIDsResp := None;
     HomoPubkey := []; PartBytes := []; EncGradFromOther := [];
     EncCostFromOther := []; GradBytes := []; CostBytes := [];
     Stopped := false |}.

(** [&pbLogicRegVl.Message{}]: the discriminator's zero value is the first
    constant of the enum. *)
Definition emptyMessage : Message := newMessage MessageType_MsgPsiEnc.

Definition withLoopRound (r : Z) (m : Message) : Message :=
  {| MsgType := MsgType m; To := To m; From := From m; LoopRound := r;
     VlLPsiReEncIDsReq := VlLPsiReEncIDsReq m;
     VlLPsiReEncIDsResp := VlLPsiReEncIDsResp m;
     HomoPubkey := HomoPubkey m; PartBytes := PartBytes m;
     EncGradFromOther := EncGradFromOther m;
     EncCostFromOther := EncCostFromOther m;
     GradBytes := GradBytes m; CostBytes := CostBytes m;
     Stopped := Stopped m |}.

Definition withRoute (from to : string) (m : Message) : Message :=
  {| MsgType := MsgType m; To := to; From := from; LoopRound := LoopRound m;
     VlLPsiReEncIDsReq := VlLPsiReEncIDsReq m;
     VlLPsiReEncIDsResp := VlLPsiReEncIDsResp m;
     HomoPubkey := HomoPubkey m; PartBytes := PartBytes m;
     EncGradFromOther := EncGradFromOther m;
     EncCostFromOther := EncCostFromOther m;
     GradBytes := GradBytes m; CostBytes := CostBytes m;
     Stopped := Stopped m |}.

Definition withReq (q : option VLPsiReEncIDsRequest) (m : Message) : Message :=
  {| MsgType := MsgType m; To := To m; From := From m; LoopRound := LoopRound m;
     VlLPsiReEncIDsReq := q;
     VlLPsiReEncIDsResp := VlLPsiReEncIDsResp m;
     HomoPubkey := HomoPubkey m; PartBytes := PartBytes m;
     EncGradFromOther := EncGradFromOther m;
     EncCostFromOther := EncCostFromOther m;
     GradBytes := GradBytes m; CostBytes := CostBytes m;
     Stopped := Stopped m |}.

Definition withResp (r : option VLPsiReEncIDsResponse) (m : Message) : Message :=
  {| MsgType := MsgType m; To := To m; From := From m; LoopRound := LoopRound m;
     VlLPsiReEncIDsReq := VlLPsiReEncIDsReq m;
     VlLPsiReEncIDsResp := r;
     HomoPubkey := HomoPubkey m; PartBytes := PartBytes m;
     EncGradFromOther := EncGradFromOther m;
     EncCostFromOther := EncCostFromOther m;
     GradBytes := GradBytes m; CostBytes := CostBytes m;
     Stopped := Stopped m |}.

Definition withHomoPubkey (b : bytes) (m : Message) : Message :=
  {| MsgType := MsgType m; To := To m; From := From m; LoopRound := LoopRound m;
     VlLPsiReEncIDsReq := VlLPsiReEncIDsReq m;
     VlLPsiReEncIDsResp := VlLPsiReEncIDsResp m;
     HomoPubkey := b; PartBytes := PartBytes m;
     EncGradFromOther := EncGradFromOther m;
     EncCostFromOther := EncCostFromOther m;
     GradBytes := GradBytes m; CostBytes := CostBytes m;
     Stopped := Stopped m |}.

Definition withPartBytes (b : bytes) (m : Message) : Message :=
  {| MsgType := MsgType m; To := To m; From := From m; LoopRound := LoopRound m;
     VlLPsiReEncIDsReq := VlLPsiReEncIDsReq m;
     VlLPsiReEncIDsResp := VlLPsiReEncIDsResp m;
     HomoPubkey := HomoPubkey m; PartBytes := b;
     EncGradFromOther := EncGradFromOther m;
     EncCostFromOther := EncCostFromOther m;
     GradBytes := GradBytes m; CostBytes := CostBytes m;
     Stopped := Stopped m |}.

Definition withEncGradCost (g c : bytes) (m : Message) : Message :=
  {| MsgType := MsgType m; To := To m; From := From m; LoopRound := LoopRound m;
     VlLPsiReEncIDsReq := VlLPsiReEncIDsReq m;
     VlLPsiReEncIDsResp := VlLPsiReEncIDsResp m;
     HomoPubkey := HomoPubkey m; PartBytes := PartBytes m;
     EncGradFromOther := g;
     EncCostFromOther := c;
     GradBytes := GradBytes m; CostBytes := CostBytes m;
     Stopped := Stopped m |}.

Definition withGradCost (g c : bytes) (m : Message) : Message :=
  {| MsgType := MsgType m; To := To m; From := From m; LoopRound := LoopRound m;
     VlLPsiReEncIDsReq := VlLPsiReEncIDsReq m;
     VlLPsiReEncIDsResp := VlLPsiReEncIDsResp m;
     HomoPubkey := HomoPubkey m; PartBytes := PartBytes m;
     EncGradFromOther := EncGradFromOther m;
     EncCostFromOther := EncCostFromOther m;
     GradBytes := g; CostBytes := c;
     Stopped := Stopped m |}.

Definition withStopped (b : bool) (m : Message) : Message :=
  {| MsgType := MsgType m; To := To m; From := From m; LoopRound := LoopRound m;
     VlLPsiReEncIDsReq := VlLPsiReEncIDsReq m;
     VlLPsiReEncIDsResp := VlLPsiReEncIDsResp m;
     HomoPubkey := HomoPubkey m; PartBytes := PartBytes m;
     EncGradFromOther := EncGradFromOther m;
     EncCostFromOther := EncCostFromOther m;
     GradBytes := GradBytes m; CostBytes := CostBytes m;
     Stopped := b |}.

(** [pbCom.Algorithm]; the Learner only uses [LOGIC_REGRESSION_VL]. *)
Inductive Algorithm :=
| Algorithm_LOGIC_REGRESSION_VL
| Algorithm_Unlisted (discriminator : Z).

Record TrainRequest := {
  treq_TaskID : string;
  treq_Algo : Algorithm;
  treq_Payload : bytes
}.

Record TrainResponse := {
  tresp_TaskID : string;
  tresp_Payload : bytes
}.

(** [pbCom.TrainTaskResult] *)
Record TrainTaskResult := {
  TaskID : string;
  Success : bool;
  Model : bytes;
  ErrMsg : string
}.

(** A Go pair [(value, error)] in which exactly one side is meaningful. *)
Definition result (A : Type) : Type := (A + error)%type.

(** Unsigned 64-bit arithmetic of [loopRound]. *)
Definition u64 (x : Z) : Z := (x mod 2 ^ 64)%Z.

(* ===================================================================== *)
(** ** logic_reg_vl: collaborators *)
(* ===================================================================== *)

(** [type PSI interface]; an engine of type [P] is the engine's state and
    every method returns the state it leaves behind. *)
Class PSI (P : Type) := {
  EncryptSampleIDSet : P -> P * result bytes;
  SetReEncryptIDSet : P -> string -> bytes -> P * result bool;
  ReEncryptIDSet : P -> string -> bytes -> P * result bytes;
  SetOtherFinalReEncryptIDSet : P -> string -> bytes -> P * option error;
  IntersectParts : P -> P * result (bool * list (list string) * list string)
}.

(** The methods of [*process] that [advance] calls, with the result types
    their call sites fix.  The [int] results are the "ready" flags compared
    with [1]. *)
Class Process (Q : Type) := {
  init : Q -> list (list string) -> Q * option error;
  setHomoPubOfOther : Q -> bytes -> Q;
  upRound : Q -> Z -> Q * option error;
  calLocalGradientAndCost : Q -> Q * result (bytes * Z);
  setPartBytesFromOther : Q -> bytes -> Z -> Q * option error;
  calEncGradientAndCost : Q -> Q * result (bytes * bytes * Z);
  setEncGradientAndCostFromOther : Q -> bytes -> bytes -> Q * Z;
  decGradientAndCost : Q -> Q * result (bytes * bytes * Z);
  SetGradientAndCostFromOther : Q -> bytes -> bytes -> Q * Z;
  updateCostAndGradient : Q -> Q * result bool;
  setOtherStatus : Q -> bool -> Q;
  stop : Q -> Q * (bool * bool);
  getTrainModels : Q -> Q * result bytes
}.

(** [type RpcHandler interface]; a successful call returns a response. *)
Class RpcHandler (R : Type) := {
  StepTrain : R -> TrainRequest -> string -> R * result TrainResponse
}.

(** [proto.Marshal] and [proto.Unmarshal] on [pbLogicRegVl.Message]. *)
Record Codec := {
  Marshal : Message -> result bytes;
  Unmarshal : bytes -> result Message
}.

(* ===================================================================== *)
(** ** logic_reg_vl: the Learner *)
(* ===================================================================== *)

Section Learner.

Context {P Q R : Type} `{PSI P} `{Process Q} `{RpcHandler R}.
Variable proto : Codec.

(** [type Learner struct].  [rh] is the result handler, kept as the list of
    results passed to [SaveResult], oldest first.  The key pair, the training
    parameters and the sample file are only used to build [psi] and
    [process]; [procMutex] has no content of its own: a call of [advance] is
    one atomic step of the model. *)
Record Learner := {
  id : string;
  algo : Algorithm;
  address : string;
  parties : list string;
  homoPub : bytes;
  psi : P;
  process : Q;
  loopRound : Z;
  rpc : R;
  rh : list TrainTaskResult;
  fileRows : list (list string);
  status : learnerStatusType
}.

Definition set_psi (p : P) (l : Learner) : Learner :=
  {| id := id l; algo := algo l; address := address l; parties := parties l;
     homoPub := homoPub l; psi := p; process := process l;
     loopRound := loopRound l; rpc := rpc l; rh := rh l;
     fileRows := fileRows l; status := status l |}.

Definition set_process (q : Q) (l : Learner) : Learner :=
  {| id := id l; algo := algo l; address := address l; parties := parties l;
     homoPub := homoPub l; psi := psi l; process := q;
     loopRound := loopRound l; rpc := rpc l; rh := rh l;
     fileRows := fileRows l; status := status l |}.

Definition set_loopRound (r : Z) (l : Learner) : Learner :=
  {| id := id l; algo := algo l; address := address l; parties := parties l;
     homoPub := homoPub l; psi := psi l; process := process l;
     loopRound := r; rpc := rpc l; rh := rh l;
     fileRows := fileRows l; status := status l |}.

Definition set_rpc (r : R) (l : Learner) : Learner :=
  {| id := id l; algo := algo l; address := address l; parties := parties l;
     homoPub := homoPub l; psi := psi l; process := process l;
     loopRound := loopRound l; rpc := r; rh := rh l;
     fileRows := fileRows l; status := status l |}.

Definition set_fileRows (rows : list (list string)) (l : Learner) : Learner :=
  {| id := id l; algo := algo l; address := address l; parties := parties l;
     homoPub := homoPub l; psi := psi l; process := process l;
     loopRound := loopRound l; rpc := rpc l; rh := rh l;
     fileRows := rows; status := status l |}.

Definition set_status (s : learnerStatusType) (l : Learner) : Learner :=
  {| id := id l; algo := algo l; address := address l; parties := parties l;
     homoPub := homoPub l; psi := psi l; process := process l;
     loopRound := loopRound l; rpc := rpc l; rh := rh l;
     fileRows := fileRows l; status := s |}.

(** [l.rh.SaveResult(res)] *)
Definition SaveResult (res : TrainTaskResult) (l : Learner) : Learner :=
  {| id := id l; algo := algo l; address := address l; parties := parties l;
     homoPub := homoPub l; psi := psi l; process := process l;
     loopRound := loopRound l; rpc := rpc l; rh := rh l ++ [res];
     fileRows := fileRows l; status := status l |}.

(** A goroutine started by a [go] statement and not yet run.  The closure of
    a self-posted message reads the Learner when it runs, as the function
    literal in the source does. *)
Inductive Task :=
| GoHandleError (err : error)
| GoAdvance (mk : Learner -> Message).

(** The Learner, the goroutines waiting to run, and a ghost counter of the
    calls of [sendMessage] made so far. *)
Record World := {
  learner : Learner;
  pool : list Task;
  sendCalls : nat
}.

Definition on_learner (f : Learner -> Learner) (w : World) : World :=
  {| learner := f (learner w); pool := pool w; sendCalls := sendCalls w |}.

(** [go t] *)
Definition go (t : Task) (w : World) : World :=
  {| learner := learner w; pool := pool w ++ [t]; sendCalls := sendCalls w |}.

Definition count_send (w : World) : World :=
  {| learner := learner w; pool := pool w; sendCalls := S (sendCalls w) |}.

(** What a call leaves to its caller: the Go pair [(ret, err)], or a run-time
    panic (a [nil] dereference or an index out of range). *)
Inductive outcome :=
| Return (ret : option TrainResponse) (err : option error)
| Panic.

(** [handleError], the closure of [advance]. *)
Definition handleError (err : error) (l : Learner) : Learner :=
  let res := {| TaskID := id l; Success := false; Model := [];
                ErrMsg := Error err |} in
  SaveResult res l.

(** [go handleError(err); return nil, err] *)
Definition fail (err : error) (w : World) : World * outcome :=
  (go (GoHandleError err) w, Return None (Some err)).

(** [func (l *Learner) sendMessage(message, address)] *)
Definition sendMessage (message : Message) (addr : string) (w : World)
  : World * (option Message * option error) :=
  let w := count_send w in
  let l := learner w in
  let message := withRoute (address l) addr message in
  match Marshal proto message with
  | inr err =>
      (w, (None, Some (errorx_New ErrCodeInternal
                         ("failed to Marshal payload: " ++ Error err))))
  | inl payload =>
      let trainReq := {| treq_TaskID := id l; treq_Algo := algo l;
                         treq_Payload := payload |} in
      let '(r, resp) := StepTrain (rpc l) trainReq addr in
      let w := on_learner (set_rpc r) w in
      match resp with
      | inr err => (w, (None, Some err))
      | inl resp =>
          let m := emptyMessage in
          if (List.length (tresp_Payload resp) =? 0)%nat then (w, (Some m, None))
          else
            match Unmarshal proto (tresp_Payload resp) with
            | inr err =>
                (w, (None, Some (errorx_New ErrCodeInternal
                   ("failed to Unmarshal payload["
                      ++ string_of_list_byte (tresp_Payload resp)
                      ++ "] from[" ++ addr ++ "] and err is["
                      ++ Error err ++ "] "))))
            | inl m => (w, (Some m, None))
            end
      end
  end.

(** The [for] loop of [sendMessageWithRetry] with [n] iterations left and the
    current values of [m] and [err]. *)
Fixpoint retryLoop (n : nat) (message : Message) (addr : string)
    (m : option Message) (err : option error) (w : World)
  : World * (option Message * option error) :=
  match n with
  | O => (w, (m, err))
  | S n' =>
      let '(w1, (m1, err1)) := sendMessage message addr w in
      match err1 with
      | None => (w1, (m1, err1))
      | Some _ => retryLoop n' message addr m1 err1 w1
      end
  end.

(** [func (l *Learner) sendMessageWithRetry(message, address)] *)
Definition sendMessageWithRetry (message : Message) (addr : string) (w : World)
  : World * (option Message * option error) :=
  let times := 3%nat in
  retryLoop times message addr None None w.

(** [l.parties[0]]; [None] stands for the index-out-of-range panic. *)
Definition party0 (l : Learner) : option string :=
  match parties l with
  | [] => None
  | p0 :: _ => Some p0
  end.

(** [&pb.TrainResponse{TaskID: l.id}] *)
Definition ack (l : Learner) : TrainResponse :=
  {| tresp_TaskID := id l; tresp_Payload := [] |}.

(** [go func() { l.advance(m) }()] for a message whose fields are all fixed
    when the goroutine is started. *)
Definition post (m : Message) (w : World) : World :=
  go (GoAdvance (fun _ => m)) w.

(** [case MsgPsiEnc] *)
Definition onMsgPsiEnc (message : Message) (w : World) : World * outcome :=
  let '(p, r) := EncryptSampleIDSet (psi (learner w)) in
  let w := on_learner (set_psi p) w in
  match r with
  | inr err => fail err w
  | inl encIDs =>
      let mk := fun l : Learner =>
        withReq (Some {| req_TaskID := id l; EncIDs := encIDs |})
          (newMessage MessageType_MsgPsiAskReEnc) in
      (go (GoAdvance mk) w, Return None None)
  end.

(** [case MsgPsiAskReEnc] *)
Definition onMsgPsiAskReEnc (message : Message) (w : World) : World * outcome :=
  let newMess :=
    withLoopRound (loopRound (learner w))
      (withReq (VlLPsiReEncIDsReq message)
         (newMessage MessageType_MsgPsiReEnc)) in
  match party0 (learner w) with
  | None => (w, Panic)
  | Some peer =>
      let '(w, (reM, err)) := sendMessageWithRetry newMess peer w in
      match err with
      | Some err => fail err w
      | None =>
          match reM with
          | None => (w, Panic)
          | Some reM =>
              match VlLPsiReEncIDsResp reM with
              | None => (w, Panic)
              | Some resp =>
                  let '(p, r) :=
                    SetReEncryptIDSet (psi (learner w)) peer (ReEncIDs resp) in
                  let w := on_learner (set_psi p) w in
                  match r with
                  | inr err => fail err w
                  | inl done =>
                      if done
                      then (post (newMessage MessageType_MsgPsiIntersect) w,
                            Return None None)
                      else (w, Return None None)
                  end
              end
          end
      end
  end.

(** The [retM] of [case MsgPsiReEnc]: the answer to the party [from]. *)
Definition reEncReply (l : Learner) (from : string) (reEncIDs : bytes)
  : Message :=
  withResp (Some {| resp_TaskID := id l; ReEncIDs := reEncIDs |})
    (withRoute (address l) from (newMessage MessageType_MsgPsiReEnc)).

(** [case MsgPsiReEnc] *)
Definition onMsgPsiReEnc (message : Message) (w : World) : World * outcome :=
  match VlLPsiReEncIDsReq message with
  | None => (w, Panic)
  | Some req =>
      let '(p, r) :=
        ReEncryptIDSet (psi (learner w)) (From message) (EncIDs req) in
      let w := on_learner (set_psi p) w in
      match r with
      | inr err => fail err w
      | inl reEncIDs =>
          let l := learner w in
          let retM := reEncReply l (From message) reEncIDs in
          match Marshal proto retM with
          | inr err =>
              fail (errorx_New ErrCodeInternal
                      ("failed to Marshal payload: " ++ Error err)) w
          | inl payload =>
              let ret := {| tresp_TaskID := id l; tresp_Payload := payload |} in
              let '(p, err) :=
                SetOtherFinalReEncryptIDSet (psi l) (From message) reEncIDs in
              let w := on_learner (set_psi p) w in
              match err with
              | Some err => (go (GoHandleError err) w, Return (Some ret) None)
              | None =>
                  (post (newMessage MessageType_MsgPsiIntersect) w,
                   Return (Some ret) None)
              end
          end
      end
  end.

(** [case MsgPsiIntersect] *)
Definition onMsgPsiIntersect (message : Message) (w : World) : World * outcome :=
  let '(p, r) := IntersectParts (psi (learner w)) in
  let w := on_learner (set_psi p) w in
  match r with
  | inr err => fail err w
  | inl (done, newRows, _) =>
      if done then
        let w := on_learner (set_fileRows newRows) w in
        let w := on_learner (set_status learnerStatusEndPSI) w in
        (post (newMessage MessageType_MsgTrainHup) w, Return None None)
      else (w, Return None None)
  end.

(** [case MsgTrainHup] *)
Definition onMsgTrainHup (message : Message) (w : World) : World * outcome :=
  if status_eqb learnerStatusEndPSI (status (learner w)) then
    let w := on_learner (set_status learnerStatusStartTrain) w in
    let '(q, err) := init (process (learner w)) (fileRows (learner w)) in
    let w := on_learner (set_process q) w in
    match err with
    | Some err => fail err w
    | None =>
        let m :=
          withLoopRound (loopRound (learner w))
            (withHomoPubkey (homoPub (learner w))
               (newMessage MessageType_MsgHomoPubkey)) in
        match party0 (learner w) with
        | None => (w, Panic)
        | Some peer =>
            let '(w, (_, err)) := sendMessageWithRetry m peer w in
            match err with
            | Some err => fail err w
            | None =>
                (post (withLoopRound 0 (newMessage MessageType_MsgTrainLoop)) w,
                 Return None None)
            end
        end
    end
  else (w, Return None None).

(** [case MsgHomoPubkey] *)
Definition onMsgHomoPubkey (message : Message) (w : World) : World * outcome :=
  let homoPubkeyOfOther := HomoPubkey message in
  let w :=
    on_learner (fun l =>
      set_process (setHomoPubOfOther (process l) homoPubkeyOfOther) l) w in
  (w, Return (Some (ack (learner w))) None).

(** [case MsgTrainLoop]; the self-posted message reads [l.loopRound] when its
    goroutine runs. *)
Definition onMsgTrainLoop (message : Message) (w : World) : World * outcome :=
  let newRound := LoopRound message in
  if (newRound =? 0)%Z || (newRound =? u64 (loopRound (learner w) + 1))%Z then
    let w := on_learner (set_loopRound newRound) w in
    let '(q, err) := upRound (process (learner w)) (loopRound (learner w)) in
    let w := on_learner (set_process q) w in
    match err with
    | Some err => fail err w
    | None =>
        let mk := fun l : Learner =>
          withLoopRound (loopRound l)
            (newMessage MessageType_MsgTrainCalLocalGradCost) in
        (go (GoAdvance mk) w, Return None None)
    end
  else (w, Return None None).

(** [case MsgTrainCalLocalGradCost] *)
Definition onMsgTrainCalLocalGradCost (message : Message) (w : World)
  : World * outcome :=
  let round := LoopRound message in
  if (round =? loopRound (learner w))%Z then
    let '(q, r) := calLocalGradientAndCost (process (learner w)) in
    let w := on_learner (set_process q) w in
    match r with
    | inr err => fail err w
    | inl (partBytesForOther, t) =>
        if (t =? 1)%Z then
          let m :=
            withLoopRound round
              (withPartBytes partBytesForOther
                 (newMessage MessageType_MsgTrainPartBytes)) in
          match party0 (learner w) with
          | None => (w, Panic)
          | Some peer =>
              let '(w, (_, err)) := sendMessageWithRetry m peer w in
              match err with
              | Some err => fail err w
              | None =>
                  (post (withLoopRound round
                           (newMessage MessageType_MsgTrainCalEncGradCost)) w,
                   Return None None)
              end
          end
        else (w, Return None None)
    end
  else (w, Return None None).

(** [case MsgTrainPartBytes] *)
Definition onMsgTrainPartBytes (message : Message) (w : World)
  : World * outcome :=
  let round := LoopRound message in
  let partBytesFromOther := PartBytes message in
  let '(w, err) :=
    if (round =? loopRound (learner w))%Z
       || (round =? u64 (loopRound (learner w) + 1))%Z
    then
      let '(q, err) :=
        setPartBytesFromOther (process (learner w)) partBytesFromOther round in
      (on_learner (set_process q) w, err)
    else (w, None) in
  match err with
  | Some err => fail err w
  | None =>
      let w :=
        if (round =? loopRound (learner w))%Z
        then post (withLoopRound round
                     (newMessage MessageType_MsgTrainCalEncGradCost)) w
        else w in
      (w, Return (Some (ack (learner w))) None)
  end.

(** [case MsgTrainCalEncGradCost] *)
Definition onMsgTrainCalEncGradCost (message : Message) (w : World)
  : World * outcome :=
  let round := LoopRound message in
  if (round =? loopRound (learner w))%Z then
    let '(q, r) := calEncGradientAndCost (process (learner w)) in
    let w := on_learner (set_process q) w in
    match r with
    | inr err => fail err w
    | inl (encGradForOther, encCostForOther, t) =>
        if (t =? 1)%Z then
          let m :=
            withLoopRound round
              (withEncGradCost encGradForOther encCostForOther
                 (newMessage MessageType_MsgTrainEncGradCost)) in
          match party0 (learner w) with
          | None => (w, Panic)
          | Some peer =>
              let '(w, (_, err)) := sendMessageWithRetry m peer w in
              match err with
              | Some err => fail err w
              | None => (w, Return None None)
              end
          end
        else (w, Return None None)
    end
  else (w, Return None None).

(** [case MsgTrainEncGradCost] *)
Definition onMsgTrainEncGradCost (message : Message) (w : World)
  : World * outcome :=
  let round := LoopRound message in
  let encGradFromOther := EncGradFromOther message in
  let encCostFromOther := EncCostFromOther message in
  let w :=
    if (round =? loopRound (learner w))%Z then
      let '(q, t) :=
        setEncGradientAndCostFromOther (process (learner w))
          encGradFromOther encCostFromOther in
      let w := on_learner (set_process q) w in
      if (t =? 1)%Z
      then post (withLoopRound round
                   (newMessage MessageType_MsgTrainDecLocalGradCost)) w
      else w
    else w in
  (w, Return (Some (ack (learner w))) None).

(** [case MsgTrainDecLocalGradCost] *)
Definition onMsgTrainDecLocalGradCost (message : Message) (w : World)
  : World * outcome :=
  let round := LoopRound message in
  if (round =? loopRound (learner w))%Z then
    let '(q, r) := decGradientAndCost (process (learner w)) in
    let w := on_learner (set_process q) w in
    match r with
    | inr err => fail err w
    | inl (gradBytesForOther, costBytesForOther, t) =>
        if (t =? 1)%Z then
          let m :=
            withLoopRound round
              (withGradCost gradBytesForOther costBytesForOther
                 (newMessage MessageType_MsgTrainGradAndCost)) in
          match party0 (learner w) with
          | None => (w, Panic)
          | Some peer =>
              let '(w, (_, err)) := sendMessageWithRetry m peer w in
              match err with
              | Some err => fail err w
              | None => (w, Return None None)
              end
          end
        else (w, Return None None)
    end
  else (w, Return None None).

(** [case MsgTrainGradAndCost] *)
Definition onMsgTrainGradAndCost (message : Message) (w : World)
  : World * outcome :=
  let round := LoopRound message in
  let gradBytesFromOther := GradBytes message in
  let costBytesFromOther := CostBytes message in
  let w :=
    if (round =? loopRound (learner w))%Z then
      let '(q, t) :=
        SetGradientAndCostFromOther (process (learner w))
          gradBytesFromOther costBytesFromOther in
      let w := on_learner (set_process q) w in
      if (t =? 1)%Z
      then post (withLoopRound round
                   (newMessage MessageType_MsgTrainUpdCostGrad)) w
      else w
    else w in
  (w, Return (Some (ack (learner w))) None).

(** [case MsgTrainUpdCostGrad]; [l.parties[0]] is first evaluated for the log
    line that precedes the send. *)
Definition onMsgTrainUpdCostGrad (message : Message) (w : World)
  : World * outcome :=
  let round := LoopRound message in
  if (round =? loopRound (learner w))%Z then
    let '(q, r) := updateCostAndGradient (process (learner w)) in
    let w := on_learner (set_process q) w in
    match r with
    | inr err => fail err w
    | inl stopped =>
        let m :=
          withLoopRound round
            (withStopped stopped (newMessage MessageType_MsgTrainStatus)) in
        match party0 (learner w) with
        | None => (w, Panic)
        | Some peer =>
            let '(w, (_, err)) := sendMessageWithRetry m peer w in
            match err with
            | Some err => fail err w
            | None =>
                (post (withLoopRound round
                         (newMessage MessageType_MsgTrainCheckStatus)) w,
                 Return None None)
            end
        end
    end
  else (w, Return None None).

(** [case MsgTrainStatus] *)
Definition onMsgTrainStatus (message : Message) (w : World) : World * outcome :=
  let round := LoopRound message in
  let w :=
    if (round =? loopRound (learner w))%Z then
      let otherStopped := Stopped message in
      let w :=
        on_learner (fun l =>
          set_process (setOtherStatus (process l) otherStopped) l) w in
      post (withLoopRound round (newMessage MessageType_MsgTrainCheckStatus)) w
    else w in
  (w, Return (Some (ack (learner w))) None).

(** [case MsgTrainCheckStatus] *)
Definition onMsgTrainCheckStatus (message : Message) (w : World)
  : World * outcome :=
  let round := LoopRound message in
  let '(q, (decided, stopped)) := stop (process (learner w)) in
  let w := on_learner (set_process q) w in
  if decided then
    if stopped then
      (post (withLoopRound round (newMessage MessageType_MsgTrainModels)) w,
       Return None None)
    else
      (post (withLoopRound (u64 (round + 1))
               (newMessage MessageType_MsgTrainLoop)) w,
       Return None None)
  else (w, Return None None).

(** [case MsgTrainModels] *)
Definition onMsgTrainModels (message : Message) (w : World) : World * outcome :=
  if status_eqb learnerStatusStartTrain (status (learner w)) then
    let w := on_learner (set_status learnerStatusEndTrain) w in
    let '(q, r) := getTrainModels (process (learner w)) in
    let w := on_learner (set_process q) w in
    match r with
    | inr err => fail err w
    | inl model =>
        let res := {| TaskID := id (learner w); Success := true;
                      Model := model; ErrMsg := "" |} in
        (on_learner (SaveResult res) w, Return None None)
    end
  else (w, Return None None).

(** [func (l *Learner) advance(message)]: the [switch] has no [default]. *)
Definition advance (message : Message) (w : World) : World * outcome :=
  match MsgType message with
  | MessageType_MsgPsiEnc => onMsgPsiEnc message w
  | MessageType_MsgPsiAskReEnc => onMsgPsiAskReEnc message w
  | MessageType_MsgPsiReEnc => onMsgPsiReEnc message w
  | MessageType_MsgPsiIntersect => onMsgPsiIntersect message w
  | MessageType_MsgTrainHup => onMsgTrainHup message w
  | MessageType_MsgHomoPubkey => onMsgHomoPubkey message w
  | MessageType_MsgTrainLoop => onMsgTrainLoop message w
  | MessageType_MsgTrainCalLocalGradCost => onMsgTrainCalLocalGradCost message w
  | MessageType_MsgTrainPartBytes => onMsgTrainPartBytes message w
  | MessageType_MsgTrainCalEncGradCost => onMsgTrainCalEncGradCost message w
  | MessageType_MsgTrainEncGradCost => onMsgTrainEncGradCost message w
  | MessageType_MsgTrainDecLocalGradCost => onMsgTrainDecLocalGradCost message w
  | MessageType_MsgTrainGradAndCost => onMsgTrainGradAndCost message w
  | MessageType_MsgTrainUpdCostGrad => onMsgTrainUpdCostGrad message w
  | MessageType_MsgTrainStatus => onMsgTrainStatus message w
  | MessageType_MsgTrainCheckStatus => onMsgTrainCheckStatus message w
  | MessageType_MsgTrainModels => onMsgTrainModels message w
  | MessageType_Unlisted _ => (w, Return None None)
  end.

(** [func (l *Learner) Advance(payload []byte)] *)
Definition Advance (payload : bytes) (w : World) : World * outcome :=
  match Unmarshal proto payload with
  | inr err =>
      (w, Return None
            (Some (errorx_New ErrCodeParam
                     ("failed to Unmarshal payload: " ++ Error err))))
  | inl m => advance m w
  end.

(** [func NewLearner(...)].  [newPSI] is the outcome of
    [psi.NewVLTowPartsPSI], [keys] the outcome of
    [crypCom.GenerateHomoKeyPair] (the public half), [proc] the value of
    [newProcess]; [rh] starts with no result. *)
Definition NewLearner (id_ address_ : string) (parties_ : list string)
    (rpc_ : R) (newPSI : result P) (keys : result bytes) (proc : Q)
  : result World :=
  match newPSI with
  | inr err => inr err
  | inl p =>
      match keys with
      | inr err => inr err
      | inl homoPub_ =>
          let l := {| id := id_; algo := Algorithm_LOGIC_REGRESSION_VL;
                      address := address_; parties := parties_;
                      homoPub := homoPub_; psi := p; process := proc;
                      loopRound := 0%Z; rpc := rpc_; rh := [];
                      fileRows := []; status := learnerStatusStartPSI |} in
          inl {| learner := l;
                 pool := [GoAdvance (fun _ => newMessage MessageType_MsgPsiEnc)];
                 sendCalls := 0 |}
      end
  end.

(* --------------------------------------------------------------------- *)
(** *** Runs *)
(* --------------------------------------------------------------------- *)

(** The body of a started goroutine. *)
Definition runTask (t : Task) (w : World) : World * outcome :=
  match t with
  | GoHandleError err => (on_learner (handleError err) w, Return None None)
  | GoAdvance mk => advance (mk (learner w)) w
  end.

(** Takes the [i]-th waiting goroutine out of the pool. *)
Fixpoint pick (i : nat) (ts : list Task) : option (Task * list Task) :=
  match ts with
  | [] => None
  | t :: rest =>
      match i with
      | O => Some (t, rest)
      | S j =>
          match pick j rest with
          | Some (t', rest') => Some (t', t :: rest')
          | None => None
          end
      end
  end.

(** What can happen next to a Learner: the transport hands a payload to
    [Advance], or the scheduler runs one of the waiting goroutines. *)
Inductive event :=
| Deliver (payload : bytes)
| Resume (i : nat).

Definition fire (e : event) (w : World) : option (World * outcome) :=
  match e with
  | Deliver payload => Some (Advance payload w)
  | Resume i =>
      match pick i (pool w) with
      | None => None
      | Some (t, rest) =>
          Some (runTask t {| learner := learner w; pool := rest;
                             sendCalls := sendCalls w |})
      end
  end.

(** One step of the Learner; a panic ends the program, so it has no
    successor. *)
Definition step (e : event) (w : World) : option World :=
  match fire e w with
  | Some (w', Return _ _) => Some w'
  | _ => None
  end.

(** A run: the worlds visited, the start included.  [None] when an event
    names no goroutine or a step panics. *)
Fixpoint trace (es : list event) (w : World) : option (list World) :=
  match es with
  | [] => Some [w]
  | e :: es' =>
      match step e w with
      | None => None
      | Some w' =>
          match trace es' w' with
          | None => None
          | Some ws => Some (w :: ws)
          end
      end
  end.

(* --------------------------------------------------------------------- *)
(** *** Observations used in the statements *)
(* --------------------------------------------------------------------- *)

(** [err == nil] for the pair a send returns. *)
Definition succeeded (r : World * (option Message * option error)) : bool :=
  match snd (snd r) with
  | None => true
  | Some _ => false
  end.

(** The inbound training messages that carry a round. *)
Definition roundGuarded (t : MessageType) : bool :=
  match t with
  | MessageType_MsgTrainPartBytes
  | MessageType_MsgTrainEncGradCost
  | MessageType_MsgTrainGradAndCost
  | MessageType_MsgTrainStatus => true
  | _ => false
  end.

(** The inbound messages that are answered with an acknowledgement. *)
Definition acknowledged (t : MessageType) : bool :=
  match t with
  | MessageType_MsgHomoPubkey => true
  | _ => roundGuarded t
  end.

(** The successful reports among the results saved. *)
Definition successes (rs : list TrainTaskResult) : nat :=
  List.length (filter Success rs).

(** [message] is a [MsgTrainModels] that finds [status == StartTrain] and a
    process whose model can be extracted. *)
Definition extracts (message : Message) (w : World) : bool :=
  match MsgType message with
  | MessageType_MsgTrainModels =>
      status_eqb learnerStatusStartTrain (status (learner w))
      && match snd (getTrainModels (process (learner w))) with
         | inl _ => true
         | inr _ => false
         end
  | _ => false
  end.

(** The result [case MsgTrainModels] saves for an extracted model. *)
Definition successOf (w : World) : list TrainTaskResult :=
  match snd (getTrainModels (process (learner w))) with
  | inl model =>
      [{| TaskID := id (learner w); Success := true; Model := model;
          ErrMsg := "" |}]
  | inr _ => []
  end.

(** How a step on [m] may change [loopRound]. *)
Definition roundEffect (m : Message) (w w' : World) : Prop :=
  loopRound (learner w') = loopRound (learner w)
  \/ (MsgType m = MessageType_MsgTrainLoop
      /\ loopRound (learner w') = LoopRound m
      /\ (LoopRound m = 0%Z
          \/ LoopRound m = u64 (loopRound (learner w) + 1))).

(** The number of [SaveResult] calls the event is expected to make: one for
    a [handleError] goroutine, one for an extracting [MsgTrainModels]. *)
Definition reports (e : event) (w : World) : nat :=
  match e with
  | Deliver payload =>
      match Unmarshal proto payload with
      | inl m => if extracts m w then 1 else 0
      | inr _ => 0
      end
  | Resume i =>
      match pick i (pool w) with
      | Some (GoHandleError _, _) => 1
      | Some (GoAdvance mk, _) => if extracts (mk (learner w)) w then 1 else 0
      | None => 0
      end
  end.

Fixpoint reportsAlong (es : list event) (w : World) : nat :=
  match es with
  | [] => 0
  | e :: es' =>
      match step e w with
      | None => 0
      | Some w' => reports e w + reportsAlong es' w'
      end
  end.

(** [status] never moves to an earlier element of the chain along the
    worlds of a run. *)
Fixpoint forward (ws : list World) : Prop :=
  match ws with
  | w :: ((w' :: _) as rest) =>
      (status_rank (status (learner w))
         <= status_rank (status (learner w')))%nat /\ forward rest
  | _ => True
  end.

(** At most one successful result is saved, and once it is, [status] is
    EndTrain. *)
Definition atMostOne (w : World) : Prop :=
  (successes (rh (learner w)) <= 1)%nat
  /\ (successes (rh (learner w)) = 1%nat ->
      status (learner w) = learnerStatusEndTrain).

(** How [loopRound] may differ between two consecutive worlds. *)
Definition roundMove (w w' : World) : Prop :=
  loopRound (learner w') = loopRound (learner w)
  \/ loopRound (learner w') = 0%Z
  \/ loopRound (learner w') = u64 (loopRound (learner w) + 1).

Fixpoint roundMoves (ws : list World) : Prop :=
  match ws with
  | w :: ((w' :: _) as rest) => roundMove w w' /\ roundMoves rest
  | _ => True
  end.

(** The messages whose handler sends to the peer. *)
Definition sends (t : MessageType) : bool :=
  match t with
  | MessageType_MsgPsiAskReEnc
  | MessageType_MsgTrainHup
  | MessageType_MsgTrainCalLocalGradCost
  | MessageType_MsgTrainCalEncGradCost
  | MessageType_MsgTrainDecLocalGradCost
  | MessageType_MsgTrainUpdCostGrad => true
  | _ => false
  end.

(** The self-posted training messages that are compared with the current
    round. *)
Definition roundGuardedLocal (t : MessageType) : bool :=
  match t with
  | MessageType_MsgTrainCalLocalGradCost
  | MessageType_MsgTrainCalEncGradCost
  | MessageType_MsgTrainDecLocalGradCost
  | MessageType_MsgTrainUpdCostGrad => true
  | _ => false
  end.

(** The messages whose handler has no error branch. *)
Definition infallible (t : MessageType) : bool :=
  match t with
  | MessageType_MsgHomoPubkey
  | MessageType_MsgTrainEncGradCost
  | MessageType_MsgTrainGradAndCost
  | MessageType_MsgTrainStatus
  | MessageType_MsgTrainCheckStatus
  | MessageType_Unlisted _ => true
  | _ => false
  end.

(** A result as the Learner [l] writes them: its own task id, and either a
    success without error text or a failure without model. *)
Definition resultOf (l : Learner) (r : TrainTaskResult) : Prop :=
  TaskID r = id l
  /\ (Success r = true -> ErrMsg r = "")
  /\ (Success r = false -> Model r = []).

(** How [status] may differ between two consecutive worlds. *)
Definition statusMove (w w' : World) : Prop :=
  status (learner w') = status (learner w)
  \/ status (learner w') = learnerStatusEndPSI
  \/ (status (learner w) = learnerStatusEndPSI
      /\ status (learner w') = learnerStatusStartTrain)
  \/ (status (learner w) = learnerStatusStartTrain
      /\ status (learner w') = learnerStatusEndTrain).

Fixpoint statusMoves (ws : list World) : Prop :=
  match ws with
  | w :: ((w' :: _) as rest) => statusMove w w' /\ statusMoves rest
  | _ => True
  end.

(** The fields of the Learner that [NewLearner] fixes. *)
Definition sameConfig (l l' : Learner) : Prop :=
  id l' = id l /\ algo l' = algo l /\ address l' = address l
  /\ parties l' = parties l /\ homoPub l' = homoPub l.

Fixpoint exec (es : list event) (w : World) : option World :=
  match es with
  | [] => Some w
  | e :: es' =>
      match step e w with
      | None => None
      | Some w' => exec es' w'
      end
  end.

End Learner.

(* ===================================================================== *)
(** ** A concrete wire format and concrete collaborators

    Instances of the interfaces above on which the Learner can be run:
    a length-prefixed binary encoding of [Message], a two-party PSI engine
    that only tracks which identifier sets it holds, a training process that
    is ready at every step, and a peer that answers every request. *)
(* ===================================================================== *)

Module Wire.

Local Open Scope list_scope.

Definition obind {A B : Type} (o : option A) (f : A -> option B) : option B :=
  match o with
  | Some a => f a
  | None => None
  end.

Notation "'let*' x ':=' e 'in' k" := (obind e (fun x => k))
  (at level 61, x pattern, e at next level, right associativity).

Definition byte_of_Z (z : Z) : byte :=
  match Byte.of_N (Z.to_N z) with
  | Some b => b
  | None => x00
  end.

Definition Z_of_byte (b : byte) : Z := Z.of_N (Byte.to_N b).

(** One length byte, then the content; no field of 256 bytes or more. *)
Definition put_bytes (b : bytes) : option bytes :=
  let* n := Byte.of_nat (List.length b) in Some (n :: b).

Definition get_bytes (s : bytes) : option (bytes * bytes) :=
  match s with
  | [] => None
  | n :: rest =>
      let k := Byte.to_nat n in
      if (k <=? List.length rest)%nat
      then Some (firstn k rest, skipn k rest)
      else None
  end.

Definition put_string (s : string) : option bytes :=
  put_bytes (list_byte_of_string s).

Definition get_string (s : bytes) : option (string * bytes) :=
  let* (b, rest) := get_bytes s in Some (string_of_list_byte b, rest).

(** Big-endian, [k] bytes. *)
Fixpoint put_uint (k : nat) (z : Z) : bytes :=
  match k with
  | O => []
  | S k' => put_uint k' (z / 256) ++ [byte_of_Z (z mod 256)]
  end.

Definition get_uint (k : nat) (s : bytes) : option (Z * bytes) :=
  if (k <=? List.length s)%nat
  then Some (fold_left (fun acc b => (acc * 256 + Z_of_byte b)%Z) (firstn k s) 0%Z,
             skipn k s)
  else None.

Definition tag_of (t : MessageType) : Z :=
  match t with
  | MessageType_MsgPsiEnc => 0
  | MessageType_MsgPsiAskReEnc => 1
  | MessageType_MsgPsiReEnc => 2
  | MessageType_MsgPsiIntersect => 3
  | MessageType_MsgTrainHup => 4
  | MessageType_MsgHomoPubkey => 5
  | MessageType_MsgTrainLoop => 6
  | MessageType_MsgTrainCalLocalGradCost => 7
  | MessageType_MsgTrainPartBytes => 8
  | MessageType_MsgTrainCalEncGradCost => 9
  | MessageType_MsgTrainEncGradCost => 10
  | MessageType_MsgTrainDecLocalGradCost => 11
  | MessageType_MsgTrainGradAndCost => 12
  | MessageType_MsgTrainUpdCostGrad => 13
  | MessageType_MsgTrainStatus => 14
  | MessageType_MsgTrainCheckStatus => 15
  | MessageType_MsgTrainModels => 16
  | MessageType_Unlisted d => d
  end%Z.

Definition listed : list MessageType :=
  [ MessageType_MsgPsiEnc; MessageType_MsgPsiAskReEnc; MessageType_MsgPsiReEnc;
    MessageType_MsgPsiIntersect; MessageType_MsgTrainHup;
    MessageType_MsgHomoPubkey; MessageType_MsgTrainLoop;
    MessageType_MsgTrainCalLocalGradCost; MessageType_MsgTrainPartBytes;
    MessageType_MsgTrainCalEncGradCost; MessageType_MsgTrainEncGradCost;
    MessageType_MsgTrainDecLocalGradCost; MessageType_MsgTrainGradAndCost;
    MessageType_MsgTrainUpdCostGrad; MessageType_MsgTrainStatus;
    MessageType_MsgTrainCheckStatus; MessageType_MsgTrainModels ].

Definition type_of_tag (z : Z) : MessageType :=
  nth (Z.to_nat z) listed (MessageType_Unlisted z).

Definition put_req (q : option VLPsiReEncIDsRequest) : option bytes :=
  match q with
  | None => Some [x00]
  | Some q =>
      let* t := put_string (req_TaskID q) in
      let* e := put_bytes (EncIDs q) in
      Some (x01 :: t ++ e)
  end.

Definition get_req (s : bytes)
  : option (option VLPsiReEncIDsRequest * bytes) :=
  match s with
  | x00 :: rest => Some (None, rest)
  | x01 :: rest =>
      let* (t, rest) := get_string rest in
      let* (e, rest) := get_bytes rest in
      Some (Some {| req_TaskID := t; EncIDs := e |}, rest)
  | _ => None
  end.

Definition put_resp (q : option VLPsiReEncIDsResponse) : option bytes :=
  match q with
  | None => Some [x00]
  | Some q =>
      let* t := put_string (resp_TaskID q) in
      let* e := put_bytes (ReEncIDs q) in
      Some (x01 :: t ++ e)
  end.

Definition get_resp (s : bytes)
  : option (option VLPsiReEncIDsResponse * bytes) :=
  match s with
  | x00 :: rest => Some (None, rest)
  | x01 :: rest =>
      let* (t, rest) := get_string rest in
      let* (e, rest) := get_bytes rest in
      Some (Some {| resp_TaskID := t; ReEncIDs := e |}, rest)
  | _ => None
  end.

Definition encode (m : Message) : option bytes :=
  let tag := tag_of (MsgType m) in
  if negb ((0 <=? tag)%Z && (tag <? 256)%Z) then None else
  if negb ((0 <=? LoopRound m)%Z && (LoopRound m <? 2 ^ 64)%Z) then None else
  let* to := put_string (To m) in
  let* from := put_string (From m) in
  let* req := put_req (VlLPsiReEncIDsReq m) in
  let* resp := put_resp (VlLPsiReEncIDsResp m) in
  let* pub := put_bytes (HomoPubkey m) in
  let* part := put_bytes (PartBytes m) in
  let* eg := put_bytes (EncGradFromOther m) in
  let* ec := put_bytes (EncCostFromOther m) in
  let* g := put_bytes (GradBytes m) in
  let* c := put_bytes (CostBytes m) in
  Some (byte_of_Z tag :: to ++ from ++ put_uint 8 (LoopRound m)
          ++ req ++ resp ++ pub ++ part ++ eg ++ ec ++ g ++ c
          ++ [if Stopped m then x01 else x00]).

Definition decode (s : bytes) : option Message :=
  match s with
  | [] => Some emptyMessage
  | tag :: rest =>
      let* (to, rest) := get_string rest in
      let* (from, rest) := get_string rest in
      let* (round, rest) := get_uint 8 rest in
      let* (req, rest) := get_req rest in
      let* (resp, rest) := get_resp rest in
      let* (pub, rest) := get_bytes rest in
      let* (part, rest) := get_bytes rest in
      let* (eg, rest) := get_bytes rest in
      let* (ec, rest) := get_bytes rest in
      let* (g, rest) := get_bytes rest in
      let* (c, rest) := get_bytes rest in
      match rest with
      | [b] =>
          Some {| MsgType := type_of_tag (Z_of_byte tag); To := to;
                  From := from; LoopRound := round;
                  VlLPsiReEncIDsReq := req; VlLPsiReEncIDsResp := resp;
                  HomoPubkey := pub; PartBytes := part;
                  EncGradFromOther := eg; EncCostFromOther := ec;
                  GradBytes := g; CostBytes := c;
                  Stopped := negb (Byte.eqb b x00) |}
      | _ => None
      end
  end.

(** Well-formed UTF-8, as [utf8.Valid] decides it: [need] continuation
    bytes are still due, the next of them within [lo .. hi]. *)
Fixpoint utf8From (need : nat) (lo hi : N) (s : bytes) : bool :=
  match s with
  | [] => Nat.eqb need 0
  | b :: rest =>
      let n := Byte.to_N b in
      match need with
      | O =>
          if (n <? 128)%N then utf8From 0 128 191 rest
          else if (194 <=? n)%N && (n <=? 223)%N then utf8From 1 128 191 rest
          else if (n =? 224)%N then utf8From 2 160 191 rest
          else if (n =? 237)%N then utf8From 2 128 159 rest
          else if (225 <=? n)%N && (n <=? 239)%N then utf8From 2 128 191 rest
          else if (n =? 240)%N then utf8From 3 144 191 rest
          else if (n =? 244)%N then utf8From 3 128 143 rest
          else if (241 <=? n)%N && (n <=? 243)%N then utf8From 3 128 191 rest
          else false
      | S k =>
          if (lo <=? n)%N && (n <=? hi)%N then utf8From k 128 191 rest
          else false
      end
  end.

Definition utf8Valid (s : string) : bool :=
  utf8From 0 128 191 (list_byte_of_string s).

(** The string fields of a message are all well-formed UTF-8. *)
Definition stringsValid (m : Message) : bool :=
  utf8Valid (To m) && utf8Valid (From m)
  && match VlLPsiReEncIDsReq m with
     | Some q => utf8Valid (req_TaskID q)
     | None => true
     end
  && match VlLPsiReEncIDsResp m with
     | Some q => utf8Valid (resp_TaskID q)
     | None => true
     end.

(** Like protobuf, the codec refuses, in both directions, a message with a
    string field that is not UTF-8; the empty payload is the message with
    every field at its zero value. *)
Definition codec : Codec :=
  {| Marshal := fun m =>
       if negb (stringsValid m) then
         inr (errorx_New (ErrCodeOf "proto")
                "string field contains invalid UTF-8")
       else
         match encode m with
         | Some b => inl b
         | None => inr (errorx_New (ErrCodeOf "proto") "field out of range")
         end;
     Unmarshal := fun b =>
       match decode b with
       | Some m =>
           if stringsValid m then inl m
           else inr (errorx_New (ErrCodeOf "proto")
                       "string field contains invalid UTF-8")
       | None => inr (errorx_New (ErrCodeOf "proto") "unexpected EOF")
       end |}.

(** The payload of a message that encodes, the empty payload otherwise. *)
Definition payload_of (m : Message) : bytes :=
  match encode m with
  | Some b => b
  | None => []
  end.

End Wire.

Module Scenario.

(** Modelled from the spec: the PSI engine behind the [PSI] interface
    ([psi.NewVLTowPartsPSI]) is not in the sources.  Its state is the doubly
    encrypted sets it has been given.  As the comments of the interface and
    section 4.1 of the specification say, [SetReEncryptIDSet] is done as soon
    as the one peer has answered, [IntersectParts] is done whenever both
    sets are present, and a malformed (here: empty) identifier set is an
    error.  Re-encryption and the aligned rows are fixed stand-ins. *)
Record psi_state := {
  ownFinal : option bytes;
  otherFinal : option bytes
}.

#[export] Instance toyPSI : PSI psi_state := {|
  EncryptSampleIDSet := fun p => (p, inl [x01; x02; x03]);
  SetReEncryptIDSet := fun p _ reEncIDs =>
    ({| ownFinal := Some reEncIDs; otherFinal := otherFinal p |}, inl true);
  ReEncryptIDSet := fun p _ encIDs =>
    match encIDs with
    | [] => (p, inr (errorx_New (ErrCodeOf "psi") "empty identifier set"))
    | _ => (p, inl (rev encIDs))
    end;
  SetOtherFinalReEncryptIDSet := fun p _ reEncIDs =>
    ({| ownFinal := ownFinal p; otherFinal := Some reEncIDs |}, None);
  IntersectParts := fun p =>
    match ownFinal p, otherFinal p with
    | Some _, Some _ => (p, inl (true, [["1"; "0.2"]; ["2"; "0.8"]], ["1"; "2"]))
    | _, _ => (p, inl (false, [], []))
    end
|}.

(** Modelled from the spec: [process] is not in the sources.  This one is
    ready at every step (every flag is [1]); [upRound] clears the stop
    decisions of the round and [stop] decides once both are known, stopping
    when both parties have stopped (section 4.2).  It stops in the round
    [lastRound]; [modelOk] says whether the model can be extracted. *)
Record proc_state := {
  lastRound : Z;
  modelOk : bool;
  round : Z;
  localStopped : option bool;
  peerStopped : option bool
}.

Definition proc_with (r : Z) (ls ps : option bool) (q : proc_state)
  : proc_state :=
  {| lastRound := lastRound q; modelOk := modelOk q; round := r;
     localStopped := ls; peerStopped := ps |}.

#[export] Instance toyProcess : Process proc_state := {|
  init := fun q _ => (q, None);
  setHomoPubOfOther := fun q _ => q;
  upRound := fun q r => (proc_with r None None q, None);
  calLocalGradientAndCost := fun q => (q, inl ([x0a], 1%Z));
  setPartBytesFromOther := fun q _ _ => (q, None);
  calEncGradientAndCost := fun q => (q, inl ([x0b], [x0c], 1%Z));
  setEncGradientAndCostFromOther := fun q _ _ => (q, 1%Z);
  decGradientAndCost := fun q => (q, inl ([x0d], [x0e], 1%Z));
  SetGradientAndCostFromOther := fun q _ _ => (q, 1%Z);
  updateCostAndGradient := fun q =>
    let stopped := (lastRound q <=? round q)%Z in
    (proc_with (round q) (Some stopped) (peerStopped q) q, inl stopped);
  setOtherStatus := fun q b => proc_with (round q) (localStopped q) (Some b) q;
  stop := fun q =>
    match localStopped q, peerStopped q with
    | Some a, Some b => (q, (true, a && b))
    | _, _ => (q, (false, false))
    end;
  getTrainModels := fun q =>
    if modelOk q then (q, inl [x2a])
    else (q, inr (errorx_New (ErrCodeOf "process") "no model"))
|}.

(** Modelled from the spec: the peer behind the RPC port (section 6).  It
    fails the first [n] calls, then answers a [MsgPsiReEnc] request with the
    re-encrypted identifiers and every other request with an empty
    acknowledgement, as the inbound handlers of [advance] do. *)
#[export] Instance toyRpc : RpcHandler nat := {|
  StepTrain := fun n req peer =>
    match n with
    | S n' => (n', inr (errorx_New (ErrCodeOf "rpc") "peer unavailable"))
    | O =>
        let reply :=
          match Wire.decode (treq_Payload req) with
          | Some m =>
              match MsgType m, VlLPsiReEncIDsReq m with
              | MessageType_MsgPsiReEnc, Some q =>
                  Wire.payload_of
                    (withResp (Some {| resp_TaskID := req_TaskID q;
                                       ReEncIDs := rev (EncIDs q) |})
                       (withRoute peer (From m)
                          (newMessage MessageType_MsgPsiReEnc)))
              | _, _ => []
              end
          | None => []
          end in
        (O, inl {| tresp_TaskID := treq_TaskID req; tresp_Payload := reply |})
    end
|}.

Definition W : Type := @World psi_state proc_state nat.

Definition proc0 (lastRound_ : Z) (modelOk_ : bool) : proc_state :=
  {| lastRound := lastRound_; modelOk := modelOk_; round := 0%Z;
     localStopped := None; peerStopped := None |}.

(** [NewLearner] for task ["task"] at party ["A"] with peer ["B"]; the peer
    fails its first [down] calls. *)
Definition born (down : nat) (lastRound_ : Z) (modelOk_ : bool) : result W :=
  NewLearner "task" "A" ["B"] down
    (inl {| ownFinal := None; otherFinal := None |})
    (inl [x70; x6b])
    (proc0 lastRound_ modelOk_).

(** The world [born] returns (construction does not fail here). *)
Definition fresh (down : nat) (lastRound_ : Z) (modelOk_ : bool) : W :=
  match born down lastRound_ modelOk_ with
  | inl w => w
  | inr _ =>
      {| learner :=
           {| id := ""; algo := Algorithm_LOGIC_REGRESSION_VL; address := "";
              parties := []; homoPub := [];
              psi := {| ownFinal := None; otherFinal := None |};
              process := proc0 lastRound_ modelOk_; loopRound := 0%Z;
              rpc := down; rh := []; fileRows := [];
              status := learnerStatusStartPSI |};
         pool := []; sendCalls := 0 |}
  end.

(** A message as the peer ["B"] puts it on the wire. *)
Definition fromPeer (m : Message) : bytes :=
  Wire.payload_of (withRoute "B" "A" m).

Definition peerReEnc (encIDs : bytes) : bytes :=
  fromPeer (withReq (Some {| req_TaskID := "task"; EncIDs := encIDs |})
              (newMessage MessageType_MsgPsiReEnc)).

Definition peerRound (t : MessageType) (r : Z) : bytes :=
  fromPeer (withLoopRound r (newMessage t)).

Definition peerStatus (stopped : bool) (r : Z) : bytes :=
  fromPeer (withLoopRound r
              (withStopped stopped (newMessage MessageType_MsgTrainStatus))).

Definition run (es : list event) (w : W) : option W := exec Wire.codec es w.

(** What the result handler has been given after the run. *)
Definition saved (es : list event) (w : W) : option (list TrainTaskResult) :=
  option_map (fun w' => rh (learner w')) (run es w).

(** The values of [status] along the run. *)
Definition statuses (es : list event) (w : W)
  : option (list learnerStatusType) :=
  option_map (map (fun w' => status (learner w'))) (trace Wire.codec es w).

(** The values of [loopRound] along the run. *)
Definition rounds (es : list event) (w : W) : option (list Z) :=
  option_map (map (fun w' => loopRound (learner w'))) (trace Wire.codec es w).

Definition after (es : list event) (w : W) : W :=
  match run es w with
  | Some w' => w'
  | None => w
  end.

Local Open Scope list_scope.

(** Two broken requests of the peer (no identifiers to re-encrypt), then the
    two [handleError] goroutines they started. *)
Definition twoBadRequests : list event :=
  [ Deliver (peerReEnc []); Deliver (peerReEnc []); Resume 1; Resume 1 ].

(** PSI up to the point where both identifier sets are in: [MsgPsiEnc],
    [MsgPsiAskReEnc] (whose answer completes this party's set), then the
    peer's own [MsgPsiReEnc].  Two [MsgPsiIntersect] are now waiting. *)
Definition psiBothSets : list event :=
  [ Resume 0; Resume 0; Deliver (peerReEnc [x09]) ].

(** The first [MsgPsiIntersect], then the [MsgTrainHup] it posted. *)
Definition trainingStarted : list event :=
  psiBothSets ++ [ Resume 0; Resume 1 ].

(** The second [MsgPsiIntersect] runs once training has started. *)
Definition lateIntersect : list event :=
  trainingStarted ++ [ Resume 0 ].

(** Round 0 up to this party's own stop decision: [MsgTrainLoop],
    [MsgTrainCalLocalGradCost], [MsgTrainCalEncGradCost], the peer's
    [MsgTrainEncGradCost], [MsgTrainDecLocalGradCost], the peer's
    [MsgTrainGradAndCost], [MsgTrainUpdCostGrad], [MsgTrainCheckStatus]. *)
Definition roundZero : list event :=
  trainingStarted
  ++ [ Resume 1; Resume 1; Resume 1;
       Deliver (peerRound MessageType_MsgTrainEncGradCost 0); Resume 1;
       Deliver (peerRound MessageType_MsgTrainGradAndCost 0); Resume 1;
       Resume 1 ].

(** The peer has not stopped: [MsgTrainStatus], [MsgTrainCheckStatus], and
    the [MsgTrainLoop] of round 1. *)
Definition roundOne : list event :=
  roundZero ++ [ Deliver (peerStatus false 0); Resume 1; Resume 1 ].

(** A [MsgTrainLoop] of round 0 handed to [Advance] during round 1. *)
Definition roundReset : list event :=
  roundOne ++ [ Deliver (peerRound MessageType_MsgTrainLoop 0) ].

(** The peer has stopped too: [MsgTrainStatus], then the
    [MsgTrainCheckStatus] that posts [MsgTrainModels]. *)
Definition modelsPosted : list event :=
  roundZero ++ [ Deliver (peerStatus true 0); Resume 1 ].

(** ... and that [MsgTrainModels]. *)
Definition modelsReached : list event :=
  modelsPosted ++ [ Resume 1 ].

(** ... and the goroutine that [MsgTrainModels] started, if any. *)
Definition modelsReported : list event :=
  modelsReached ++ [ Resume 1 ].

(** After a first model, the second [MsgPsiIntersect] runs and the Learner
    goes through [MsgTrainHup] and round 0 once more. *)
Definition trainedTwice : list event :=
  modelsReached
  ++ [ Resume 0; Resume 0; Resume 0; Resume 0; Resume 0;
       Deliver (peerRound MessageType_MsgTrainEncGradCost 0); Resume 0;
       Deliver (peerRound MessageType_MsgTrainGradAndCost 0); Resume 0;
       Resume 0;
       Deliver (peerStatus true 0); Resume 0; Resume 0 ].

(** The messages of some of the events above. *)
Definition trainModels : Message :=
  withLoopRound 0 (newMessage MessageType_MsgTrainModels).

Definition resetLoop : Message :=
  withRoute "B" "A" (withLoopRound 0 (newMessage MessageType_MsgTrainLoop)).

Definition reEncRequest : Message :=
  withRoute "B" "A"
    (withReq (Some {| req_TaskID := "task"; EncIDs := [x09; x0a] |})
       (newMessage MessageType_MsgPsiReEnc)).

(** A [MsgTrainStatus] of round 7, far ahead of a Learner in round 0. *)
Definition staleStatus : Message :=
  withRoute "B" "A"
    (withLoopRound 7
       (withStopped true (newMessage MessageType_MsgTrainStatus))).

Definition homoPubkeyMessage : Message :=
  withHomoPubkey [x70; x6b] (newMessage MessageType_MsgHomoPubkey).

(** During round 1 the second [MsgPsiIntersect] runs, then the
    [MsgTrainHup] and the [MsgTrainLoop] of round 0 that follow from it. *)
Definition secondHup : list event :=
  roundOne ++ [ Resume 0; Resume 1; Resume 1 ].

(** A message of a type outside the enumeration, as it arrives. *)
Definition unlistedPayload : bytes :=
  peerRound (MessageType_Unlisted 99) 0.

(** A task id that is not UTF-8, and the Learner [NewLearner] makes for
    it. *)
Definition badId : string := string_of_list_byte [xff].

Definition freshAs (id_ : string) : W :=
  match NewLearner id_ "A" ["B"] 0%nat
          (inl {| ownFinal := None; otherFinal := None |})
          (inl [x70; x6b])
          (proc0 0 true) with
  | inl w => w
  | inr _ => fresh 0 0 true
  end.

(** More messages and runs, for the properties of the single cases. *)
Definition oversized : Message :=
  withHomoPubkey (repeat x00 300) (newMessage MessageType_MsgHomoPubkey).

Definition badRequest : Message :=
  withRoute "B" "A"
    (withReq (Some {| req_TaskID := "task"; EncIDs := [] |})
       (newMessage MessageType_MsgPsiReEnc)).

Definition staleCalLocal : Message :=
  withLoopRound 7 (newMessage MessageType_MsgTrainCalLocalGradCost).

Definition hup : Message := newMessage MessageType_MsgTrainHup.

Definition askWithoutRequest : Message :=
  newMessage MessageType_MsgPsiAskReEnc.

(** PSI finished: the first [MsgPsiIntersect] has run, its [MsgTrainHup]
    waits. *)
Definition psiFinished : list event := psiBothSets ++ [ Resume 0 ].

(** The worlds of a run, none if the run breaks off. *)
Definition worlds (es : list event) (w : W) : list W :=
  match trace Wire.codec es w with
  | Some ws => ws
  | None => []
  end.

End Scenario.

End LogicRegVl.

(* ===================================================================== *)
(** * Properties *)
(* ===================================================================== *)

Module CryptoFacts.

Import Crypto.

Lemma firstn_prefix {A : Type} (l1 l2 : list A) :
  firstn (List.length l1) (l1 ++ l2) = l1.
Proof.
  induction l1 as [|a l1 IH]; simpl.
  - reflexivity.
  - now rewrite IH.
Qed.

Lemma skipn_prefix {A : Type} (l1 l2 : list A) :
  skipn (List.length l1) (l1 ++ l2) = l2.
Proof.
  induction l1 as [|a l1 IH]; simpl; auto.
Qed.

(** C10.  [PadStart s newLen] is [s] itself when [len(s) >= newLen];
    otherwise it has length exactly [newLen], its first [newLen - len(s)]
    bytes are zero and its last [len(s)] bytes are [s]. *)
Theorem PadStart_spec (s : bytes) (newLen : Z) :
  ((len s >= newLen)%Z -> PadStart s newLen = s) /\
  ((len s < newLen)%Z ->
     let k := Z.to_nat (newLen - len s) in
     len (PadStart s newLen) = newLen /\
     firstn k (PadStart s newLen) = repeat x00 k /\
     skipn k (PadStart s newLen) = s).
Proof.
  unfold PadStart, make_zero.
  destruct (Z.geb_spec (len s) newLen) as [Hge | Hlt]; split; intros Hc;
    try lia; try reflexivity.
  cbv zeta.
  set (k := Z.to_nat (newLen - len s)).
  assert (Hk : List.length (repeat x00 k) = k) by apply repeat_length.
  repeat split.
  - unfold len in *. rewrite length_app, Hk. lia.
  - rewrite <- Hk at 1. apply firstn_prefix.
  - rewrite <- Hk at 1. apply skipn_prefix.
Qed.

Lemma PadStart_spec_witness :
  PadStart [x07; x08] 2 = [x07; x08] /\
  len (PadStart [xff] 3) = 3%Z /\
  firstn 2 (PadStart [xff] 3) = [x00; x00] /\
  skipn 2 (PadStart [xff] 3) = [xff].
Proof.
  split.
  - apply (proj1 (PadStart_spec [x07; x08] 2)). vm_compute. discriminate.
  - apply (proj2 (PadStart_spec [xff] 3)). reflexivity.
Defined.

(* --------------------------------------------------------------------- *)
(** ** More on [PadStart] *)
(* --------------------------------------------------------------------- *)

Lemma PadStart_eq (s : bytes) (newLen : Z) :
  PadStart s newLen = repeat x00 (Z.to_nat (newLen - len s)) ++ s.
Proof.
  unfold PadStart, make_zero.
  destruct (Z.geb_spec (len s) newLen) as [Hge | Hlt]; [|reflexivity].
  replace (Z.to_nat (newLen - len s)) with 0%nat by lia. reflexivity.
Qed.

(** X1.  The result of [PadStart] is as long as the longer of [s] and
    [newLen]: never shorter than [s], whatever [newLen] is (zero and
    negative lengths included). *)
Theorem PadStart_length (s : bytes) (newLen : Z) :
  len (PadStart s newLen) = Z.max (len s) newLen.
Proof.
  rewrite PadStart_eq. unfold len. rewrite length_app, repeat_length. lia.
Qed.

(** X2.  Padding twice is padding once to the larger length; in particular
    [PadStart] is idempotent, and a later padding to a smaller length changes
    nothing. *)
Theorem PadStart_twice (s : bytes) (n m : Z) :
  PadStart (PadStart s n) m = PadStart s (Z.max n m).
Proof.
  rewrite (PadStart_eq (PadStart s n) m), PadStart_length.
  rewrite !PadStart_eq, app_assoc, <- repeat_app.
  f_equal. f_equal. unfold len. lia.
Qed.

Lemma bigEndian_zeros (k : nat) (s : bytes) :
  bigEndian (repeat x00 k ++ s) = bigEndian s.
Proof.
  unfold bigEndian. rewrite fold_left_app. f_equal.
  induction k as [|k IH]; cbn; auto.
Qed.

(** X3.  Padding does not change the number the bytes stand for when read
    big-endian. *)
Theorem PadStart_bigEndian (s : bytes) (newLen : Z) :
  bigEndian (PadStart s newLen) = bigEndian s.
Proof.
  rewrite PadStart_eq. apply bigEndian_zeros.
Qed.

End CryptoFacts.

Module LearnerFacts.

Import LogicRegVl.

Local Open Scope string_scope.

Section Facts.

Context {P Q R : Type} `{PSI P} `{Process Q} `{RpcHandler R}.
Variable proto : Codec.

Local Abbreviation World := (@World P Q R).

(* --------------------------------------------------------------------- *)
(** ** Sending *)
(* --------------------------------------------------------------------- *)

(** A send changes nothing of the Learner but the state of the RPC port,
    starts no goroutine and is counted once. *)
Lemma sendMessage_frame (m : Message) (a : string) (w : World) :
  let w1 := fst (sendMessage proto m a w) in
  learner w1 = set_rpc (rpc (learner w1)) (learner w)
  /\ pool w1 = pool w
  /\ sendCalls w1 = S (sendCalls w).
Proof.
  unfold sendMessage. destruct w as [l ts n]. cbn.
  destruct (Marshal proto _) as [payload | e]; cbn.
  - destruct (StepTrain _ _ _) as [r [resp | e]]; cbn.
    + destruct (_ =? 0)%nat; cbn.
      * destruct l; auto.
      * destruct (Unmarshal proto _); cbn; destruct l; auto.
    + destruct l; auto.
  - destruct l; auto.
Qed.

Lemma retryLoop_frame (n : nat) (m : Message) (a : string) :
  forall (m0 : option Message) (e0 : option error) (w : World),
  let w1 := fst (retryLoop proto n m a m0 e0 w) in
  learner w1 = set_rpc (rpc (learner w1)) (learner w) /\ pool w1 = pool w.
Proof.
  induction n as [|n IH]; intros m0 e0 w; cbn.
  - destruct w as [l ts k]; destruct l; auto.
  - destruct (sendMessage proto m a w) as [w1 [m1 e1]] eqn:E.
    pose proof (sendMessage_frame m a w) as F. rewrite E in F. cbn in F.
    destruct F as (Fl & Fp & _).
    destruct e1 as [e1|]; cbn.
    + specialize (IH m1 (Some e1) w1). cbn in IH. destruct IH as [IHl IHp].
      split.
      * rewrite IHl, Fl. reflexivity.
      * congruence.
    + auto.
Qed.

Lemma sendMessageWithRetry_frame (m : Message) (a : string) (w : World) :
  let w1 := fst (sendMessageWithRetry proto m a w) in
  learner w1 = set_rpc (rpc (learner w1)) (learner w) /\ pool w1 = pool w.
Proof. apply retryLoop_frame. Qed.

(** C6.  [sendMessageWithRetry] calls [sendMessage] at most three times; it
    returns what the first successful attempt returned and makes no attempt
    after it; when the first two attempts fail it returns what the third
    returned, which is the third error when that fails too. *)
Theorem sendMessageWithRetry_attempts (m : Message) (a : string) (w : World) :
  let r1 := sendMessage proto m a w in
  let r2 := sendMessage proto m a (fst r1) in
  let r3 := sendMessage proto m a (fst r2) in
  let out := sendMessageWithRetry proto m a w in
  (sendCalls (fst out) <= sendCalls w + 3)%nat
  /\ (succeeded r1 = true ->
      out = r1 /\ sendCalls (fst out) = (sendCalls w + 1)%nat)
  /\ (succeeded r1 = false -> succeeded r2 = true ->
      out = r2 /\ sendCalls (fst out) = (sendCalls w + 2)%nat)
  /\ (succeeded r1 = false -> succeeded r2 = false ->
      out = r3 /\ sendCalls (fst out) = (sendCalls w + 3)%nat).
Proof.
  cbv zeta. unfold sendMessageWithRetry, succeeded. cbn [retryLoop].
  pose proof (sendMessage_frame m a w) as F1. cbv zeta in F1.
  destruct (sendMessage proto m a w) as [w1 [m1 e1]]. cbn [fst snd] in *.
  destruct F1 as (_ & _ & C1).
  pose proof (sendMessage_frame m a w1) as F2. cbv zeta in F2.
  destruct (sendMessage proto m a w1) as [w2 [m2 e2]]. cbn [fst snd] in *.
  destruct F2 as (_ & _ & C2).
  pose proof (sendMessage_frame m a w2) as F3. cbv zeta in F3.
  destruct (sendMessage proto m a w2) as [w3 [m3 e3]]. cbn [fst snd] in *.
  destruct F3 as (_ & _ & C3).
  destruct e1 as [e1|]; [destruct e2 as [e2|]; [destruct e3 as [e3|]|]|];
    cbn [fst snd]; repeat split; intros; try discriminate; try lia;
    reflexivity.
Qed.

(* --------------------------------------------------------------------- *)
(** ** Single steps of [advance] *)
(* --------------------------------------------------------------------- *)

Ltac break_match :=
  match goal with
  | |- context [match ?x with _ => _ end] =>
      match x with
      | context [match _ with _ => _ end] => fail 1
      | _ => destruct x eqn:?
      end
  end.

(** An inbound training message whose round is neither the current round nor
    the next one changes nothing and is acknowledged. *)
Lemma out_of_window (m : Message) (w : World) :
  roundGuarded (MsgType m) = true ->
  LoopRound m <> loopRound (learner w) ->
  LoopRound m <> u64 (loopRound (learner w) + 1) ->
  advance proto m w = (w, Return (Some (ack (learner w))) None).
Proof.
  intros Ht Hcur Hnext.
  apply Z.eqb_neq in Hcur. apply Z.eqb_neq in Hnext.
  unfold advance.
  destruct (MsgType m); try discriminate Ht;
    unfold onMsgTrainPartBytes, onMsgTrainEncGradCost, onMsgTrainGradAndCost,
      onMsgTrainStatus;
    cbv zeta; rewrite ?Hcur, ?Hnext; cbn [orb]; cbv beta iota;
    rewrite ?Hcur; reflexivity.
Qed.

(** C3.  An inbound training message ([MsgTrainPartBytes],
    [MsgTrainEncGradCost], [MsgTrainGradAndCost], [MsgTrainStatus]) whose
    [loopRound] is neither the receiver's current round nor the next one
    leaves the whole world as it was (status, loopRound, process, the
    goroutines waiting, the results saved) and returns no error. *)
Theorem stale_round_dropped (m : Message) (w : World) :
  roundGuarded (MsgType m) = true ->
  LoopRound m <> loopRound (learner w) ->
  LoopRound m <> u64 (loopRound (learner w) + 1) ->
  let w' := fst (advance proto m w) in
  status (learner w') = status (learner w)
  /\ loopRound (learner w') = loopRound (learner w)
  /\ process (learner w') = process (learner w)
  /\ pool w' = pool w
  /\ rh (learner w') = rh (learner w)
  /\ w' = w
  /\ snd (advance proto m w) = Return (Some (ack (learner w))) None.
Proof.
  intros Ht Hcur Hnext.
  rewrite (out_of_window m w Ht Hcur Hnext). cbn. repeat split.
Qed.

Lemma acknowledged_on_return (m : Message) (w w' : World)
    (ret : option TrainResponse) :
  acknowledged (MsgType m) = true ->
  advance proto m w = (w', Return ret None) ->
  ret = Some (ack (learner w)).
Proof.
  intros Ht. destruct w as [l ts n].
  unfold advance.
  destruct (MsgType m); try discriminate Ht;
    unfold onMsgHomoPubkey, onMsgTrainPartBytes, onMsgTrainEncGradCost,
      onMsgTrainGradAndCost, onMsgTrainStatus, fail, post, go;
    cbv zeta; repeat break_match; intros E; inversion E; subst;
    try discriminate; reflexivity.
Qed.

(** C9.  A handler of an inbound message ([MsgHomoPubkey],
    [MsgTrainPartBytes], [MsgTrainEncGradCost], [MsgTrainGradAndCost],
    [MsgTrainStatus]) that returns without error returns the response
    [{TaskID: l.id}] with no payload; an out-of-window message, which has no
    effect, gets that same response. *)
Theorem acknowledgement_uniform (m : Message) (w : World) :
  acknowledged (MsgType m) = true ->
  (forall w' ret, advance proto m w = (w', Return ret None) ->
     ret = Some {| tresp_TaskID := id (learner w); tresp_Payload := [] |})
  /\ (roundGuarded (MsgType m) = true ->
      LoopRound m <> loopRound (learner w) ->
      LoopRound m <> u64 (loopRound (learner w) + 1) ->
      advance proto m w
      = (w, Return (Some {| tresp_TaskID := id (learner w);
                            tresp_Payload := [] |}) None)).
Proof.
  intros Ht. split.
  - intros w' ret E. exact (acknowledged_on_return m w w' ret Ht E).
  - intros Hg Hcur Hnext. exact (out_of_window m w Hg Hcur Hnext).
Qed.

(** For an inbound [MsgPsiReEnc] on which [ReEncryptIDSet] succeeds with
    [reEncIDs], and [payload] the serialized reply (type [MsgPsiReEnc], the
    task id and [reEncIDs]): [advance] returns the response carrying the
    task id and [payload]; the same [reEncIDs] go to
    [SetOtherFinalReEncryptIDSet], and when that succeeds a [MsgPsiIntersect]
    is posted (when it fails, a [handleError] is started instead). *)
Lemma MsgPsiReEnc_serialized (m : Message) (w : World)
    (req : VLPsiReEncIDsRequest) (p1 : P) (reEncIDs payload : bytes) :
  MsgType m = MessageType_MsgPsiReEnc ->
  VlLPsiReEncIDsReq m = Some req ->
  ReEncryptIDSet (psi (learner w)) (From m) (EncIDs req) = (p1, inl reEncIDs) ->
  Marshal proto (reEncReply (learner w) (From m) reEncIDs) = inl payload ->
  let reply := reEncReply (learner w) (From m) reEncIDs in
  let fed := SetOtherFinalReEncryptIDSet p1 (From m) reEncIDs in
  MsgType reply = MessageType_MsgPsiReEnc
  /\ VlLPsiReEncIDsResp reply
     = Some {| resp_TaskID := id (learner w); ReEncIDs := reEncIDs |}
  /\ snd (advance proto m w)
     = Return (Some {| tresp_TaskID := id (learner w);
                       tresp_Payload := payload |}) None
  /\ psi (learner (fst (advance proto m w))) = fst fed
  /\ pool (fst (advance proto m w))
     = (pool w ++ [match snd fed with
                   | None => GoAdvance
                               (fun _ => newMessage MessageType_MsgPsiIntersect)
                   | Some err => GoHandleError err
                   end])%list.
Proof.
  intros Ht Hreq Hre Hpay. cbv zeta.
  split; [reflexivity|]. split; [reflexivity|].
  unfold advance. rewrite Ht. unfold onMsgPsiReEnc. rewrite Hreq, Hre.
  cbv zeta.
  replace (reEncReply (learner (on_learner (set_psi p1) w)) (From m) reEncIDs)
    with (reEncReply (learner w) (From m) reEncIDs) by reflexivity.
  rewrite Hpay. cbn [learner on_learner psi set_psi].
  destruct (SetOtherFinalReEncryptIDSet p1 (From m) reEncIDs) as [p2 [e|]];
    cbn; auto.
Qed.

(** When the reply of [case MsgPsiReEnc] does not serialize, no response is
    returned: the Internal error is, and a [handleError] is started. *)
Lemma MsgPsiReEnc_unserializable (m : Message) (w : World)
    (req : VLPsiReEncIDsRequest) (p1 : P) (reEncIDs : bytes) (e : error) :
  MsgType m = MessageType_MsgPsiReEnc ->
  VlLPsiReEncIDsReq m = Some req ->
  ReEncryptIDSet (psi (learner w)) (From m) (EncIDs req) = (p1, inl reEncIDs) ->
  Marshal proto (reEncReply (learner w) (From m) reEncIDs) = inr e ->
  let err := errorx_New ErrCodeInternal
               ("failed to Marshal payload: " ++ Error e) in
  advance proto m w
  = (go (GoHandleError err) (on_learner (set_psi p1) w),
     Return None (Some err)).
Proof.
  intros Ht Hreq Hre Hpay. cbv zeta.
  unfold advance. rewrite Ht. unfold onMsgPsiReEnc. rewrite Hreq, Hre.
  cbv zeta.
  replace (reEncReply (learner (on_learner (set_psi p1) w)) (From m) reEncIDs)
    with (reEncReply (learner w) (From m) reEncIDs) by reflexivity.
  rewrite Hpay. reflexivity.
Qed.

(** C8, as the code has it.  For an inbound [MsgPsiReEnc] on which
    [ReEncryptIDSet] succeeds with [reEncIDs], the reply has type
    [MsgPsiReEnc] and carries the task id and [reEncIDs].  When the reply
    serializes, [advance] returns the response with the task id and the
    serialized reply, the same [reEncIDs] go to
    [SetOtherFinalReEncryptIDSet], and a [MsgPsiIntersect] is posted when
    that succeeds (a [handleError] is started when it fails, the response
    being returned all the same).  When the reply does not serialize,
    [advance] returns no response but the Internal error, starts a
    [handleError], and [SetOtherFinalReEncryptIDSet] is not called. *)
Theorem MsgPsiReEnc_reply (m : Message) (w : World)
    (req : VLPsiReEncIDsRequest) (p1 : P) (reEncIDs : bytes) :
  MsgType m = MessageType_MsgPsiReEnc ->
  VlLPsiReEncIDsReq m = Some req ->
  ReEncryptIDSet (psi (learner w)) (From m) (EncIDs req) = (p1, inl reEncIDs) ->
  let reply := reEncReply (learner w) (From m) reEncIDs in
  let fed := SetOtherFinalReEncryptIDSet p1 (From m) reEncIDs in
  MsgType reply = MessageType_MsgPsiReEnc
  /\ VlLPsiReEncIDsResp reply
     = Some {| resp_TaskID := id (learner w); ReEncIDs := reEncIDs |}
  /\ match Marshal proto reply with
     | inl payload =>
         snd (advance proto m w)
         = Return (Some {| tresp_TaskID := id (learner w);
                           tresp_Payload := payload |}) None
         /\ psi (learner (fst (advance proto m w))) = fst fed
         /\ pool (fst (advance proto m w))
            = (pool w
               ++ [match snd fed with
                   | None =>
                       GoAdvance
                         (fun _ => newMessage MessageType_MsgPsiIntersect)
                   | Some err => GoHandleError err
                   end])%list
     | inr e =>
         let err := errorx_New ErrCodeInternal
                      ("failed to Marshal payload: " ++ Error e) in
         advance proto m w
         = (go (GoHandleError err) (on_learner (set_psi p1) w),
            Return None (Some err))
     end.
Proof.
  intros Ht Hreq Hre. cbv zeta.
  split; [reflexivity|]. split; [reflexivity|].
  destruct (Marshal proto (reEncReply (learner w) (From m) reEncIDs))
    as [payload | e] eqn:Hpay.
  - apply (MsgPsiReEnc_serialized m w req p1 reEncIDs payload Ht Hreq Hre Hpay).
  - apply (MsgPsiReEnc_unserializable m w req p1 reEncIDs e Ht Hreq Hre Hpay).
Qed.

(** C7, as the code has it.  A payload that does not deserialize makes
    [Advance] return an error of code Param and nothing else: the world is
    unchanged, so no result is posted and no goroutine started.  A message
    whose discriminator is not one of the enumerated types is not an error:
    [advance] returns [(nil, nil)] and the world is unchanged. *)
Theorem Advance_unusable_input (w : World) :
  (forall payload err,
     Unmarshal proto payload = inr err ->
     Advance proto payload w
     = (w, Return None
             (Some (errorx_New ErrCodeParam
                      ("failed to Unmarshal payload: " ++ Error err)))))
  /\ (forall payload m d,
        Unmarshal proto payload = inl m ->
        MsgType m = MessageType_Unlisted d ->
        Advance proto payload w = (w, Return None None)).
Proof.
  split.
  - intros payload err E. unfold Advance. rewrite E. reflexivity.
  - intros payload m d E Ht. unfold Advance, advance. rewrite E, Ht.
    reflexivity.
Qed.

(* --------------------------------------------------------------------- *)
(** ** What a step does to the results saved, the round and the status *)
(* --------------------------------------------------------------------- *)

Ltac send_frame :=
  match goal with
  | |- context [sendMessageWithRetry proto ?m ?a ?w] =>
      let F := fresh "F" in
      let Fl := fresh "Fl" in
      let Fp := fresh "Fp" in
      pose proof (sendMessageWithRetry_frame m a w) as F; cbv zeta in F;
      destruct (sendMessageWithRetry proto m a w) as [? [? ?]];
      cbn [fst] in F; destruct F as [Fl Fp]; cbn in Fp
  end.

Ltac simpl_fields :=
  cbn [fst snd learner pool sendCalls on_learner id algo address parties
       homoPub psi process loopRound rpc rh fileRows status set_psi
       set_process set_loopRound set_rpc set_fileRows set_status SaveResult].

Lemma advance_effect (m : Message) (w : World) :
  let w' := fst (advance proto m w) in
  rh (learner w')
  = (rh (learner w) ++ if extracts m w then successOf w else [])%list
  /\ roundEffect m w w'
  /\ (extracts m w = true -> status (learner w') = learnerStatusEndTrain)
  /\ id (learner w') = id (learner w).
Proof.
  destruct w as [l ts n]. unfold roundEffect, extracts, successOf, advance.
  destruct (MsgType m) eqn:Ht;
    unfold onMsgPsiEnc, onMsgPsiAskReEnc, onMsgPsiReEnc, onMsgPsiIntersect,
      onMsgTrainHup, onMsgHomoPubkey, onMsgTrainLoop,
      onMsgTrainCalLocalGradCost, onMsgTrainPartBytes,
      onMsgTrainCalEncGradCost, onMsgTrainEncGradCost,
      onMsgTrainDecLocalGradCost, onMsgTrainGradAndCost,
      onMsgTrainUpdCostGrad, onMsgTrainStatus, onMsgTrainCheckStatus,
      onMsgTrainModels, fail, post, go;
    cbv zeta; simpl_fields;
    repeat (first [send_frame | break_match]; simpl_fields).
  all: try match goal with
           | Fl : learner ?w1 = set_rpc _ _ |- _ => rewrite Fl
           end.
  all: try match goal with
           | Hg : (_ || _)%bool = true |- _ =>
               apply orb_true_iff in Hg; rewrite !Z.eqb_eq in Hg
           end.
  all: cbn; rewrite ?app_nil_r.
  all: solve [repeat split; auto; try discriminate; try congruence;
              right; repeat split; auto].
Qed.

(** The three things an event can be. *)
Lemma step_cases (e : event) (w w' : World) :
  step proto e w = Some w' ->
  (w' = w /\ reports proto e w = 0)
  \/ (exists m w0,
        learner w0 = learner w /\ w' = fst (advance proto m w0)
        /\ reports proto e w = if extracts m w0 then 1 else 0)
  \/ (exists err w0,
        learner w0 = learner w /\ w' = on_learner (handleError err) w0
        /\ reports proto e w = 1).
Proof.
  unfold step, fire, reports, Advance.
  destruct e as [payload | i].
  - destruct (Unmarshal proto payload) as [m | err].
    + destruct (advance proto m w) as [w1 [ret err|]] eqn:E; cbn;
        intros X; try discriminate X; inversion X; subst.
      right; left. exists m, w. rewrite E. auto.
    + intros X; inversion X; subst. now left.
  - destruct (pick i (pool w)) as [[t rest]|]; [|discriminate].
    destruct t as [err | mk]; cbn [runTask learner].
    + intros X; inversion X; subst.
      right; right.
      exists err, {| learner := learner w; pool := rest;
                     sendCalls := sendCalls w |}.
      repeat split.
    + set (w0 := {| learner := learner w; pool := rest;
                    sendCalls := sendCalls w |}).
      destruct (advance proto (mk (learner w)) w0) as [w1 [ret err|]] eqn:E;
        cbn; intros X; try discriminate X; inversion X; subst.
      right; left. exists (mk (learner w)), w0. rewrite E. repeat split.
Qed.

Lemma step_saves (e : event) (w w' : World) :
  step proto e w = Some w' ->
  List.length (rh (learner w'))
  = (List.length (rh (learner w)) + reports proto e w)%nat.
Proof.
  intros St.
  destruct (step_cases e w w' St)
    as [[-> ->] | [(m & w0 & Hl & -> & ->) | (err & w0 & Hl & -> & ->)]].
  - lia.
  - destruct (advance_effect m w0) as (Hrh & _). cbv zeta in Hrh.
    rewrite Hrh, Hl, length_app.
    destruct (extracts m w0) eqn:X; [|cbn; lia].
    unfold extracts in X. unfold successOf.
    destruct (MsgType m); try discriminate X.
    apply andb_true_iff in X. destruct X as [_ Xm].
    destruct (snd (getTrainModels _)); try discriminate Xm.
    reflexivity.
  - cbn. rewrite Hl, length_app. cbn. lia.
Qed.

Lemma step_round (e : event) (w w' : World) :
  step proto e w = Some w' -> roundMove w w'.
Proof.
  intros St. unfold roundMove.
  destruct (step_cases e w w' St)
    as [[-> _] | [(m & w0 & Hl & -> & _) | (err & w0 & Hl & -> & _)]].
  - now left.
  - destruct (advance_effect m w0) as (_ & Hr & _). cbv zeta in Hr.
    rewrite <- Hl.
    destruct Hr as [E | (_ & E & [Z0 | Z1])]; rewrite E; auto.
  - cbn. rewrite Hl. now left.
Qed.

(** A step adds no successful report, or adds exactly one while it moves
    [status] from StartTrain to EndTrain. *)
Lemma step_success (e : event) (w w' : World) :
  step proto e w = Some w' ->
  successes (rh (learner w')) = successes (rh (learner w))
  \/ (successes (rh (learner w')) = S (successes (rh (learner w)))
      /\ status (learner w) = learnerStatusStartTrain
      /\ status (learner w') = learnerStatusEndTrain).
Proof.
  intros St. unfold successes.
  destruct (step_cases e w w' St)
    as [[-> _] | [(m & w0 & Hl & -> & _) | (err & w0 & Hl & -> & _)]].
  - now left.
  - destruct (advance_effect m w0) as (Hrh & _ & Hst & _).
    cbv zeta in Hrh, Hst. rewrite Hrh, <- Hl, filter_app, length_app.
    destruct (extracts m w0) eqn:X.
    + right. unfold extracts in X. unfold successOf.
      destruct (MsgType m); try discriminate X.
      apply andb_true_iff in X. destruct X as [Xs Xm].
      destruct (snd (getTrainModels _)); try discriminate Xm.
      cbn. repeat split; auto; try lia.
      destruct (status (learner w0)); try discriminate Xs; reflexivity.
    + left. cbn. lia.
  - left. cbn. rewrite Hl, filter_app, length_app. cbn. lia.
Qed.

(** Which steps write [status], and what they write. *)
Lemma advance_status (m : Message) (w : World) :
  let w' := fst (advance proto m w) in
  status (learner w') = status (learner w)
  \/ (MsgType m = MessageType_MsgPsiIntersect
      /\ status (learner w') = learnerStatusEndPSI)
  \/ (MsgType m = MessageType_MsgTrainHup
      /\ status (learner w) = learnerStatusEndPSI
      /\ status (learner w') = learnerStatusStartTrain)
  \/ (MsgType m = MessageType_MsgTrainModels
      /\ status (learner w) = learnerStatusStartTrain
      /\ status (learner w') = learnerStatusEndTrain).
Proof.
  destruct w as [l ts n]. unfold advance.
  destruct (MsgType m) eqn:Ht;
    unfold onMsgPsiEnc, onMsgPsiAskReEnc, onMsgPsiReEnc, onMsgPsiIntersect,
      onMsgTrainHup, onMsgHomoPubkey, onMsgTrainLoop,
      onMsgTrainCalLocalGradCost, onMsgTrainPartBytes,
      onMsgTrainCalEncGradCost, onMsgTrainEncGradCost,
      onMsgTrainDecLocalGradCost, onMsgTrainGradAndCost,
      onMsgTrainUpdCostGrad, onMsgTrainStatus, onMsgTrainCheckStatus,
      onMsgTrainModels, fail, post, go;
    cbv zeta; simpl_fields;
    repeat (first [send_frame | break_match]; simpl_fields).
  all: try match goal with
           | Fl : learner ?w1 = set_rpc _ _ |- _ => rewrite Fl
           end.
  all: simpl_fields.
  all: try solve [now left].
  all: try match goal with
           | Hs : status_eqb _ ?s = true |- _ =>
               destruct s; try discriminate Hs
           end.
  all: solve [ right; left; auto
             | right; right; left; auto
             | right; right; right; auto ].
Qed.

(* --------------------------------------------------------------------- *)
(** ** Runs *)
(* --------------------------------------------------------------------- *)

(** C1, as the code has it.  [SaveResult] is called once by every
    [handleError] goroutine that runs and once by every [MsgTrainModels]
    that finds [status == StartTrain] and extracts the model, and by nothing
    else: along any run the number of results saved grows by exactly the
    number of such events, whatever that number is. *)
Theorem SaveResult_calls_counted (es : list event) (w w' : World) :
  exec proto es w = Some w' ->
  List.length (rh (learner w'))
  = (List.length (rh (learner w)) + reportsAlong proto es w)%nat.
Proof.
  revert w. induction es as [|e es IH]; intros w; cbn.
  - intros X; inversion X; subst. lia.
  - destruct (step proto e w) as [w1|] eqn:St; [|discriminate].
    intros X. rewrite (IH w1 X), (step_saves e w w1 St). lia.
Qed.

Lemma trace_roundMoves (es : list event) :
  forall (w : World) (ws : list World),
  trace proto es w = Some ws -> roundMoves ws.
Proof.
  induction es as [|e es IH]; intros w ws; cbn.
  - intros X; inversion X; subst. exact I.
  - destruct (step proto e w) as [w1|] eqn:St; [|discriminate].
    destruct (trace proto es w1) as [ws1|] eqn:Tr; [|discriminate].
    intros X; inversion X; subst.
    pose proof (IH w1 ws1 Tr) as Hrest.
    destruct es as [|e2 es2]; cbn in Tr.
    + inversion Tr; subst. cbn. split; [exact (step_round e w w1 St)|exact I].
    + destruct (step proto e2 w1); [|discriminate].
      destruct (trace proto es2 w0); [|discriminate].
      inversion Tr; subst. cbn. split; [exact (step_round e w w1 St)|].
      exact Hrest.
Qed.

(** C4, as the code has it.  A [MsgTrainLoop] with round [r] changes
    [loopRound] only if [r == 0] or [r == loopRound+1] (in 64 bits), and
    then sets it to [r]; otherwise it changes nothing.  No other message
    changes [loopRound].  So between two consecutive worlds of any run
    [loopRound] is unchanged, or up by one, or back at 0; round 0 is
    accepted in every state. *)
Theorem loopRound_moves :
  (forall (m : Message) (w : World),
     MsgType m = MessageType_MsgTrainLoop ->
     if ((LoopRound m =? 0) || (LoopRound m =? u64 (loopRound (learner w) + 1)))%Z
     then loopRound (learner (fst (advance proto m w))) = LoopRound m
     else advance proto m w = (w, Return None None))
  /\ (forall (m : Message) (w : World),
        MsgType m <> MessageType_MsgTrainLoop ->
        loopRound (learner (fst (advance proto m w))) = loopRound (learner w))
  /\ (forall (es : list event) (w : World) (ws : list World),
        trace proto es w = Some ws -> roundMoves ws).
Proof.
  split; [|split].
  - intros m w Ht. unfold advance. rewrite Ht. unfold onMsgTrainLoop.
    cbv zeta. destruct (_ || _)%bool; [|reflexivity].
    simpl_fields. destruct (upRound _ _) as [q [err|]]; reflexivity.
  - intros m w Ht. destruct (advance_effect m w) as (_ & Hr & _).
    destruct Hr as [E | (E & _)]; [exact E | contradiction].
  - intros es w ws. apply trace_roundMoves.
Qed.

Lemma trace_atMostOne (es : list event) :
  forall (w : World) (ws : list World),
  trace proto es w = Some ws -> forward ws -> atMostOne w ->
  Forall atMostOne ws.
Proof.
  induction es as [|e es IH]; intros w ws; cbn.
  - intros X _ Hw; inversion X; subst. constructor; auto.
  - destruct (step proto e w) as [w1|] eqn:St; [|discriminate].
    destruct (trace proto es w1) as [ws1|] eqn:Tr; [|discriminate].
    intros X Hf Hw; inversion X; subst.
    assert (Hhead : exists rest, ws1 = w1 :: rest).
    { destruct es as [|e2 es2]; cbn in Tr.
      - inversion Tr; subst. eauto.
      - destruct (step proto e2 w1); [|discriminate].
        destruct (trace proto es2 w0); [|discriminate].
        inversion Tr; subst. eauto. }
    destruct Hhead as [rest ->]. cbn in Hf. destruct Hf as [Hle Hf].
    constructor; [exact Hw|].
    apply (IH w1 (w1 :: rest) Tr Hf).
    destruct Hw as [Hn Hs].
    destruct (step_success e w w1 St) as [E | (E & S0 & S1)].
    + split; [lia|]. intros E1. rewrite E in E1. specialize (Hs E1).
      rewrite Hs in Hle. destruct (status (learner w1)); cbn in Hle; try lia.
      reflexivity.
    + assert (successes (rh (learner w)) <> 1%nat).
      { intros E1. specialize (Hs E1). congruence. }
      split; [lia|]. intros _. exact S1.
Qed.

(** C5, as the code has it.  A [MsgTrainModels] has an effect only when
    [status == StartTrain].  Then [status] becomes EndTrain and, when the
    model is extracted, [SaveResult] is called with [Success = true] and
    that model; when the extraction fails, nothing is saved by the call: the
    error is returned and a [handleError] goroutine is started.  With any
    other status the world is unchanged.  So along a run in which [status]
    never moves backward at most one successful result is saved. *)
Theorem MsgTrainModels_guard (m : Message) (w : World) :
  MsgType m = MessageType_MsgTrainModels ->
  (status (learner w) <> learnerStatusStartTrain ->
   advance proto m w = (w, Return None None))
  /\ (status (learner w) = learnerStatusStartTrain ->
      forall q model,
      getTrainModels (process (learner w)) = (q, inl model) ->
      advance proto m w
      = (on_learner
           (fun l =>
              SaveResult {| TaskID := id l; Success := true; Model := model;
                            ErrMsg := "" |}
                (set_process q (set_status learnerStatusEndTrain l))) w,
         Return None None))
  /\ (status (learner w) = learnerStatusStartTrain ->
      forall q err,
      getTrainModels (process (learner w)) = (q, inr err) ->
      advance proto m w
      = (go (GoHandleError err)
           (on_learner
              (fun l => set_process q (set_status learnerStatusEndTrain l)) w),
         Return None (Some err)))
  /\ (forall (es : list event) (w0 : World) (ws : list World),
        trace proto es w0 = Some ws -> forward ws ->
        successes (rh (learner w0)) = 0%nat ->
        forall w1, In w1 ws -> (successes (rh (learner w1)) <= 1)%nat).
Proof.
  intros Ht. unfold advance. rewrite Ht. unfold onMsgTrainModels.
  split; [|split; [|split]].
  - intros Hs. destruct (status (learner w)); try reflexivity.
    now contradiction Hs.
  - intros Hs q model Hg. rewrite Hs. cbn [status_eqb status_rank Nat.eqb].
    cbv zeta. simpl_fields. rewrite Hg. destruct w as [l ts n]. reflexivity.
  - intros Hs q err Hg. rewrite Hs. cbn [status_eqb status_rank Nat.eqb].
    cbv zeta. simpl_fields. rewrite Hg. destruct w as [l ts n]. reflexivity.
  - intros es w0 ws Tr Hf Hnone w1 Hin.
    assert (Hall : Forall atMostOne ws).
    { apply (trace_atMostOne es w0 ws Tr Hf). split; [lia|]. lia. }
    rewrite Forall_forall in Hall. exact (proj1 (Hall w1 Hin)).
Qed.

(** Only a [MsgPsiIntersect] can move [status] backward. *)
Lemma status_forward_but_intersect (m : Message) (w : World) :
  MsgType m <> MessageType_MsgPsiIntersect ->
  (status_rank (status (learner w))
   <= status_rank (status (learner (fst (advance proto m w)))))%nat.
Proof.
  intros Ht.
  destruct (advance_status m w)
    as [E | [(E & _) | [(_ & E0 & E1) | (_ & E0 & E1)]]];
    try contradiction; try rewrite E; try rewrite E0, E1; cbn; lia.
Qed.

(* --------------------------------------------------------------------- *)
(** ** More on sending *)
(* --------------------------------------------------------------------- *)

Lemma sendMessage_shape (m : Message) (a : string) (w : World) :
  let r := snd (sendMessage proto m a w) in
  (exists reM, r = (Some reM, None)) \/ (exists err, r = (None, Some err)).
Proof.
  unfold sendMessage. cbv zeta.
  destruct (Marshal proto _) as [payload | e]; cbn; eauto.
  destruct (StepTrain _ _ _) as [r [resp | e]]; cbn; eauto.
  destruct (_ =? 0)%nat; cbn; eauto.
  destruct (Unmarshal proto _); cbn; eauto.
Qed.

Lemma retryLoop_shape (n : nat) (m : Message) (a : string) :
  forall (m0 : option Message) (e0 : option error) (w : World),
  let r := snd (retryLoop proto (S n) m a m0 e0 w) in
  (exists reM, r = (Some reM, None)) \/ (exists err, r = (None, Some err)).
Proof.
  induction n as [|n IH]; intros m0 e0 w; cbn [retryLoop].
  - pose proof (sendMessage_shape m a w) as S1. cbv zeta in S1.
    destruct (sendMessage proto m a w) as [w1 [m1 [e1|]]]; cbn in *; auto.
  - pose proof (sendMessage_shape m a w) as S1. cbv zeta in S1.
    destruct (sendMessage proto m a w) as [w1 [m1 [e1|]]]; cbn [fst snd] in *.
    + apply (IH m1 (Some e1) w1).
    + auto.
Qed.

(** X4.  [sendMessageWithRetry] returns either a message and no error, or
    no message and an error: a caller that has tested [err] may use the
    message. *)
Theorem sendMessageWithRetry_shape (m : Message) (a : string) (w : World) :
  let r := snd (sendMessageWithRetry proto m a w) in
  (exists reM, r = (Some reM, None)) \/ (exists err, r = (None, Some err)).
Proof. apply (retryLoop_shape 2). Qed.

Lemma retryLoop_calls (n : nat) (m : Message) (a : string) :
  forall (m0 : option Message) (e0 : option error) (w : World),
  let w1 := fst (retryLoop proto n m a m0 e0 w) in
  (sendCalls w <= sendCalls w1 <= sendCalls w + n)%nat.
Proof.
  induction n as [|n IH]; intros m0 e0 w; cbn.
  - lia.
  - destruct (sendMessage proto m a w) as [w1 [m1 e1]] eqn:E.
    pose proof (sendMessage_frame m a w) as F. rewrite E in F. cbn in F.
    destruct F as (_ & _ & Fc).
    destruct e1 as [e1|]; cbn.
    + specialize (IH m1 (Some e1) w1). cbn in IH. lia.
    + lia.
Qed.

Lemma sendMessageWithRetry_calls (m : Message) (a : string) (w : World) :
  let w1 := fst (sendMessageWithRetry proto m a w) in
  (sendCalls w <= sendCalls w1 <= sendCalls w + 3)%nat.
Proof. apply retryLoop_calls. Qed.

(** X5.  A message that cannot be serialized is still tried three times:
    [sendMessageWithRetry] returns the Internal error of the third attempt,
    and the RPC port is never called (its state, like the rest of the
    world, is as before). *)
Theorem sendMessageWithRetry_unserializable (m : Message) (a : string)
    (w : World) (e : error) :
  Marshal proto (withRoute (address (learner w)) a m) = inr e ->
  sendMessageWithRetry proto m a w
  = ({| learner := learner w; pool := pool w;
        sendCalls := (3 + sendCalls w)%nat |},
     (None, Some (errorx_New ErrCodeInternal
                    ("failed to Marshal payload: " ++ Error e)))).
Proof.
  intros Hm. unfold sendMessageWithRetry. cbn [retryLoop].
  unfold sendMessage. cbn [count_send learner]. rewrite Hm. cbn [snd fst].
  cbn [count_send learner]. rewrite Hm. cbn [snd fst].
  cbn [count_send learner]. rewrite Hm. reflexivity.
Qed.

(* --------------------------------------------------------------------- *)
(** ** What every case of [advance] keeps *)
(* --------------------------------------------------------------------- *)

Ltac send_facts :=
  match goal with
  | |- context [sendMessageWithRetry proto ?m ?a ?w] =>
      let F := fresh "F" in
      let Fl := fresh "Fl" in
      let Fp := fresh "Fp" in
      let Fc := fresh "Fc" in
      pose proof (sendMessageWithRetry_frame m a w) as F;
      pose proof (sendMessageWithRetry_calls m a w) as Fc;
      cbv zeta in F, Fc;
      destruct (sendMessageWithRetry proto m a w) as [? [? ?]];
      cbn [fst] in F, Fc; destruct F as [Fl Fp]; cbn in Fp, Fc
  end.

Ltac every_case m :=
  unfold advance;
  destruct (MsgType m) eqn:?;
  unfold onMsgPsiEnc, onMsgPsiAskReEnc, onMsgPsiReEnc, onMsgPsiIntersect,
    onMsgTrainHup, onMsgHomoPubkey, onMsgTrainLoop,
    onMsgTrainCalLocalGradCost, onMsgTrainPartBytes,
    onMsgTrainCalEncGradCost, onMsgTrainEncGradCost,
    onMsgTrainDecLocalGradCost, onMsgTrainGradAndCost,
    onMsgTrainUpdCostGrad, onMsgTrainStatus, onMsgTrainCheckStatus,
    onMsgTrainModels, fail, post, go;
  cbv zeta; simpl_fields;
  repeat (first [send_facts | break_match]; simpl_fields).

Ltac by_frame :=
  simpl_fields;
  try match goal with
      | Fl : learner ?w1 = set_rpc _ _ |- _ => rewrite Fl
      end;
  try match goal with
      | Fp : pool ?w1 = _ |- _ => rewrite Fp
      end;
  simpl_fields.

(** X6.  Whenever [advance] returns an error it returns no response, it has
    started exactly one [handleError] goroutine, for that very error, and it
    has itself saved no result: every error a caller of [Advance] sees from a
    transition is also on its way to the result handler. *)
Theorem errors_are_reported (m : Message) (w w' : World)
    (ret : option TrainResponse) (err : error) :
  advance proto m w = (w', Return ret (Some err)) ->
  ret = None
  /\ pool w' = (pool w ++ [GoHandleError err])%list
  /\ rh (learner w') = rh (learner w).
Proof.
  destruct w as [l ts n]. every_case m.
  all: intros E; inversion E; subst; clear E.
  all: by_frame; auto.
Qed.

(** X7.  A call of [advance] starts at most one goroutine and leaves the
    waiting ones as they are. *)
Theorem at_most_one_goroutine (m : Message) (w : World) :
  let w' := fst (advance proto m w) in
  pool w' = pool w \/ exists t, pool w' = (pool w ++ [t])%list.
Proof.
  destruct w as [l ts n]. cbv zeta. every_case m.
  all: by_frame; eauto.
Qed.

Lemma advance_config (m : Message) (w : World) :
  let w' := fst (advance proto m w) in
  sameConfig (learner w) (learner w')
  /\ (MsgType m <> MessageType_MsgPsiIntersect ->
      fileRows (learner w') = fileRows (learner w)).
Proof.
  destruct w as [l ts n]. cbv zeta. unfold sameConfig. every_case m.
  all: by_frame; repeat split; auto; try congruence.
Qed.

(** X8.  No step changes what [NewLearner] fixed: along any run the task
    id, the algorithm, the address, the parties and the public key of the
    Learner stay the same. *)
Theorem config_is_fixed (es : list event) (w w' : World) :
  exec proto es w = Some w' -> sameConfig (learner w) (learner w').
Proof.
  revert w. induction es as [|e es IH]; intros w; cbn.
  - intros X; inversion X; subst. unfold sameConfig. auto.
  - destruct (step proto e w) as [w1|] eqn:St; [|discriminate].
    intros X. specialize (IH w1 X).
    assert (S1 : sameConfig (learner w) (learner w1)).
    { destruct (step_cases e w w1 St)
        as [[-> _] | [(m & w0 & Hl & -> & _) | (err & w0 & Hl & -> & _)]].
      - unfold sameConfig; auto.
      - rewrite <- Hl. apply (advance_config m w0).
      - rewrite <- Hl. unfold sameConfig. cbn. auto. }
    unfold sameConfig in *. intuition congruence.
Qed.

(** X9.  The aligned rows are written by a finished [MsgPsiIntersect] and
    by nothing else. *)
Theorem fileRows_written_by_intersect (m : Message) (w : World) :
  MsgType m <> MessageType_MsgPsiIntersect ->
  fileRows (learner (fst (advance proto m w))) = fileRows (learner w).
Proof. apply (advance_config m w). Qed.

(** X10.  Only the six sending cases call the peer: any other message
    makes no call of [sendMessage] and leaves the RPC port alone; and no
    message makes more than three calls. *)
Theorem sends_are_bounded (m : Message) (w : World) :
  let w' := fst (advance proto m w) in
  (sendCalls w <= sendCalls w' <= sendCalls w + 3)%nat
  /\ (sends (MsgType m) = false ->
      sendCalls w' = sendCalls w /\ rpc (learner w') = rpc (learner w)).
Proof.
  destruct w as [l ts n]. cbv zeta. every_case m.
  all: cbn [sends]; simpl_fields.
  all: split; [lia | intros; try discriminate; auto].
Qed.

(** X11.  The cases without an error branch ([MsgHomoPubkey],
    [MsgTrainEncGradCost], [MsgTrainGradAndCost], [MsgTrainStatus],
    [MsgTrainCheckStatus], an unlisted type) never return an error, never
    panic, save nothing and start no [handleError]. *)
Theorem infallible_cases (m : Message) (w : World) :
  infallible (MsgType m) = true ->
  let w' := fst (advance proto m w) in
  (exists ret, snd (advance proto m w) = Return ret None)
  /\ rh (learner w') = rh (learner w)
  /\ (pool w' = pool w
      \/ exists mk, pool w' = (pool w ++ [GoAdvance mk])%list).
Proof.
  destruct w as [l ts n]. cbv zeta. every_case m.
  all: cbn [infallible]; intros Hi; try discriminate Hi.
  all: by_frame; split; [eexists; reflexivity|]; split; [reflexivity|].
  all: first [left; reflexivity | right; eexists; reflexivity].
Qed.

(* --------------------------------------------------------------------- *)
(** ** Guards, panics and the results saved *)
(* --------------------------------------------------------------------- *)

(** X12.  A self-posted [MsgTrainCalLocalGradCost],
    [MsgTrainCalEncGradCost], [MsgTrainDecLocalGradCost] or
    [MsgTrainUpdCostGrad] whose round is not the current one does nothing at
    all: the process is not asked, nothing is sent, and [(nil, nil)] is
    returned. *)
Theorem stale_local_round_dropped (m : Message) (w : World) :
  roundGuardedLocal (MsgType m) = true ->
  LoopRound m <> loopRound (learner w) ->
  advance proto m w = (w, Return None None).
Proof.
  intros Ht Hcur. apply Z.eqb_neq in Hcur. unfold advance.
  destruct (MsgType m); try discriminate Ht;
    unfold onMsgTrainCalLocalGradCost, onMsgTrainCalEncGradCost,
      onMsgTrainDecLocalGradCost, onMsgTrainUpdCostGrad;
    cbv zeta; rewrite Hcur; reflexivity.
Qed.

Lemma MsgTrainHup_leaves (m : Message) (w : World) :
  MsgType m = MessageType_MsgTrainHup ->
  status_eqb learnerStatusEndPSI
    (status (learner (fst (advance proto m w)))) = false.
Proof.
  intros Ht. destruct w as [l ts n]. unfold advance. rewrite Ht.
  unfold onMsgTrainHup, fail, post, go. cbv zeta. simpl_fields.
  destruct (status_eqb learnerStatusEndPSI (status l)) eqn:Hs;
    [|simpl_fields; exact Hs].
  repeat (first [send_facts | break_match]; simpl_fields).
  all: by_frame; reflexivity.
Qed.

(** X13.  Whatever a [MsgTrainHup] did, a second one that follows it does
    nothing: [status] is no longer EndPSI, so the process is not
    initialized again and the public key is not sent again. *)
Theorem MsgTrainHup_once (m m' : Message) (w : World) :
  MsgType m = MessageType_MsgTrainHup ->
  MsgType m' = MessageType_MsgTrainHup ->
  advance proto m' (fst (advance proto m w))
  = (fst (advance proto m w), Return None None).
Proof.
  intros Ht Ht'. pose proof (MsgTrainHup_leaves m w Ht) as Hs.
  unfold advance at 1. rewrite Ht'. unfold onMsgTrainHup. rewrite Hs.
  reflexivity.
Qed.

(** X14.  [advance] does not panic on a Learner that has a peer, unless the
    message is a [MsgPsiAskReEnc] (which dereferences the peer's answer) or
    a [MsgPsiReEnc] without its request. *)
Theorem advance_does_not_panic (m : Message) (w : World) :
  parties (learner w) <> [] ->
  MsgType m <> MessageType_MsgPsiAskReEnc ->
  (MsgType m = MessageType_MsgPsiReEnc -> VlLPsiReEncIDsReq m <> None) ->
  snd (advance proto m w) <> Panic.
Proof.
  intros Hp Ht Hr. destruct w as [l ts n].
  assert (Hpeer : forall l' : @Learner P Q R,
            parties l' = parties l -> party0 l' <> None).
  { intros l' E. unfold party0. rewrite E. cbn in Hp.
    destruct (parties l); [contradiction | discriminate]. }
  every_case m.
  all: cbn [snd]; try discriminate.
  all: exfalso.
  all: try congruence.
  all: try solve [apply Hr; first [reflexivity | assumption]].
  all: match goal with
       | Q : party0 ?l' = None |- _ =>
           apply (Hpeer l'); [reflexivity | exact Q]
       end.
Qed.

(** X15.  A peer that answers the [MsgPsiReEnc] request with an empty
    payload makes [case MsgPsiAskReEnc] panic: the empty message has no
    [VlLPsiReEncIDsResp] to read the identifiers from. *)
Theorem MsgPsiAskReEnc_empty_answer (m : Message) (w : World)
    (peer : string) (rest : list string) (payload : bytes) (r : R)
    (resp : TrainResponse) :
  MsgType m = MessageType_MsgPsiAskReEnc ->
  parties (learner w) = peer :: rest ->
  Marshal proto
    (withRoute (address (learner w)) peer
       (withLoopRound (loopRound (learner w))
          (withReq (VlLPsiReEncIDsReq m)
             (newMessage MessageType_MsgPsiReEnc)))) = inl payload ->
  StepTrain (rpc (learner w))
    {| treq_TaskID := id (learner w); treq_Algo := algo (learner w);
       treq_Payload := payload |} peer = (r, inl resp) ->
  tresp_Payload resp = [] ->
  snd (advance proto m w) = Panic.
Proof.
  intros Ht Hp Hm Hs He. unfold advance. rewrite Ht.
  unfold onMsgPsiAskReEnc, party0. rewrite Hp.
  unfold sendMessageWithRetry. cbn [retryLoop]. unfold sendMessage.
  cbn [count_send learner]. rewrite Hm, Hs, He. reflexivity.
Qed.

Lemma step_appends (e : event) (w w' : World) :
  step proto e w = Some w' ->
  id (learner w') = id (learner w)
  /\ exists suffix,
       rh (learner w') = (rh (learner w) ++ suffix)%list
       /\ Forall (resultOf (learner w)) suffix.
Proof.
  intros St.
  destruct (step_cases e w w' St)
    as [[-> _] | [(m & w0 & Hl & -> & _) | (err & w0 & Hl & -> & _)]].
  - split; [reflexivity|]. exists []. rewrite app_nil_r. auto.
  - destruct (advance_effect m w0) as (Hrh & _ & _ & Hid).
    cbv zeta in Hrh, Hid. rewrite Hrh, Hid, <- Hl. split; [reflexivity|].
    eexists. split; [reflexivity|].
    destruct (extracts m w0); [|constructor].
    unfold successOf. destruct (snd (getTrainModels _)); constructor; auto.
    unfold resultOf. cbn. repeat split; auto; discriminate.
  - cbn. rewrite <- Hl. split; [reflexivity|].
    eexists. split; [reflexivity|].
    constructor; auto. unfold resultOf. cbn. repeat split; auto; discriminate.
Qed.

(** X16.  Along any run the results saved are only appended to, never
    changed or removed, and every result added carries the task id of the
    Learner and is either a success without error text or a failure without
    a model. *)
Theorem results_are_appended (es : list event) (w w' : World) :
  exec proto es w = Some w' ->
  exists suffix,
    rh (learner w') = (rh (learner w) ++ suffix)%list
    /\ Forall (resultOf (learner w)) suffix.
Proof.
  revert w. induction es as [|e es IH]; intros w; cbn.
  - intros X; inversion X; subst. exists []. rewrite app_nil_r. auto.
  - destruct (step proto e w) as [w1|] eqn:St; [|discriminate].
    intros X. destruct (IH w1 X) as (s2 & E2 & F2).
    destruct (step_appends e w w1 St) as (Hid & s1 & E1 & F1).
    exists (s1 ++ s2)%list. split.
    + rewrite E2, E1, app_assoc. reflexivity.
    + apply Forall_app. split; [exact F1|].
      revert F2. apply Forall_impl. intros r0. unfold resultOf.
      rewrite Hid. auto.
Qed.

Lemma step_status (e : event) (w w' : World) :
  step proto e w = Some w' -> statusMove w w'.
Proof.
  intros St. unfold statusMove.
  destruct (step_cases e w w' St)
    as [[-> _] | [(m & w0 & Hl & -> & _) | (err & w0 & Hl & -> & _)]].
  - now left.
  - rewrite <- Hl.
    destruct (advance_status m w0)
      as [E | [(_ & E) | [(_ & E0 & E1) | (_ & E0 & E1)]]]; auto.
  - cbn. rewrite Hl. now left.
Qed.

(** X17.  Between two consecutive worlds of any run [status] is unchanged,
    or goes from EndPSI to StartTrain, or from StartTrain to EndTrain, or is
    set to EndPSI: no step skips a stage forward, and EndTrain is only
    entered from StartTrain. *)
Theorem status_moves (es : list event) :
  forall (w : World) (ws : list World),
  trace proto es w = Some ws -> statusMoves ws.
Proof.
  induction es as [|e es IH]; intros w ws; cbn.
  - intros X; inversion X; subst. exact I.
  - destruct (step proto e w) as [w1|] eqn:St; [|discriminate].
    destruct (trace proto es w1) as [ws1|] eqn:Tr; [|discriminate].
    intros X; inversion X; subst.
    pose proof (IH w1 ws1 Tr) as Hrest.
    destruct es as [|e2 es2]; cbn in Tr.
    + inversion Tr; subst. cbn. split; [exact (step_status e w w1 St)|exact I].
    + destruct (step proto e2 w1); [|discriminate].
      destruct (trace proto es2 w0); [|discriminate].
      inversion Tr; subst. cbn. split; [exact (step_status e w w1 St)|].
      exact Hrest.
Qed.

End Facts.

(* --------------------------------------------------------------------- *)
(** ** Concrete runs *)
(* --------------------------------------------------------------------- *)

Import Scenario.

Local Open Scope list_scope.

Example born_fresh :
  born 0 0 true = inl (fresh 0 0 true).
Proof. reflexivity. Qed.

Example wire_roundtrip :
  Unmarshal Wire.codec (Wire.payload_of reEncRequest) = inl reEncRequest
  /\ Unmarshal Wire.codec (Wire.payload_of staleStatus) = inl staleStatus.
Proof. split; vm_compute; reflexivity. Qed.

(** C1 fails as stated: two requests of the peer that the PSI engine rejects
    make two [handleError] goroutines, and [SaveResult] is called twice. *)
Lemma SaveResult_called_twice :
  saved twoBadRequests (fresh 0 0 true)
  = Some [ {| TaskID := "task"; Success := false; Model := [];
              ErrMsg := "empty identifier set" |};
           {| TaskID := "task"; Success := false; Model := [];
              ErrMsg := "empty identifier set" |} ].
Proof. vm_compute. reflexivity. Qed.

Lemma SaveResult_calls_counted_witness :
  exec Wire.codec modelsReached (fresh 0 0 true)
  = Some (after modelsReached (fresh 0 0 true))
  /\ List.length (rh (learner (after modelsReached (fresh 0 0 true))))
     = (List.length (rh (learner (fresh 0 0 true)))
        + reportsAlong Wire.codec modelsReached (fresh 0 0 true))%nat.
Proof.
  split.
  - vm_compute. reflexivity.
  - apply (SaveResult_calls_counted Wire.codec modelsReached).
    vm_compute. reflexivity.
Defined.

(** C2 at the failing input: the second [MsgPsiIntersect] runs after
    [MsgTrainHup] and sets [status] back from StartTrain to EndPSI. *)
Theorem status_set_back_by_late_intersect :
  statuses lateIntersect (fresh 0 0 true)
  = Some [ learnerStatusStartPSI; learnerStatusStartPSI;
           learnerStatusStartPSI; learnerStatusStartPSI;
           learnerStatusEndPSI; learnerStatusStartTrain;
           learnerStatusEndPSI ].
Proof. vm_compute. reflexivity. Qed.

(** The same late [MsgPsiIntersect] after a model has been reported: the
    Learner trains again and reports a second model. *)
Example trained_twice :
  saved modelsReached (fresh 0 0 true)
  = Some [ {| TaskID := "task"; Success := true; Model := [x2a];
              ErrMsg := "" |} ]
  /\ saved trainedTwice (fresh 0 0 true)
     = Some [ {| TaskID := "task"; Success := true; Model := [x2a];
                 ErrMsg := "" |};
              {| TaskID := "task"; Success := true; Model := [x2a];
                 ErrMsg := "" |} ].
Proof. split; vm_compute; reflexivity. Qed.

Lemma stale_round_dropped_witness :
  roundGuarded (MsgType staleStatus) = true
  /\ LoopRound staleStatus <> loopRound (learner (fresh 0 0 true))
  /\ LoopRound staleStatus <> u64 (loopRound (learner (fresh 0 0 true)) + 1)
  /\ fst (advance Wire.codec staleStatus (fresh 0 0 true)) = fresh 0 0 true
  /\ snd (advance Wire.codec staleStatus (fresh 0 0 true))
     = Return (Some {| tresp_TaskID := "task"; tresp_Payload := [] |}) None.
Proof.
  assert (H1 : LoopRound staleStatus <> loopRound (learner (fresh 0 0 true)))
    by (vm_compute; discriminate).
  assert (H2 : LoopRound staleStatus
               <> u64 (loopRound (learner (fresh 0 0 true)) + 1))
    by (vm_compute; discriminate).
  pose proof (stale_round_dropped Wire.codec staleStatus (fresh 0 0 true)
                eq_refl H1 H2) as T.
  cbv zeta in T. destruct T as (_ & _ & _ & _ & _ & Tw & Tr).
  repeat split; auto.
Defined.

Lemma acknowledgement_uniform_witness :
  acknowledged (MsgType staleStatus) = true
  /\ advance Wire.codec staleStatus (fresh 0 0 true)
     = (fresh 0 0 true,
        Return (Some {| tresp_TaskID := "task"; tresp_Payload := [] |}) None).
Proof.
  split; [reflexivity|].
  apply (proj2 (acknowledgement_uniform Wire.codec staleStatus
                  (fresh 0 0 true) eq_refl)).
  - reflexivity.
  - vm_compute; discriminate.
  - vm_compute; discriminate.
Defined.

Lemma MsgPsiReEnc_reply_witness :
  MsgType reEncRequest = MessageType_MsgPsiReEnc
  /\ snd (advance Wire.codec reEncRequest (fresh 0 0 true))
     = Return
         (Some {| tresp_TaskID := "task";
                  tresp_Payload :=
                    Wire.payload_of
                      (reEncReply (learner (fresh 0 0 true)) "B"
                         [x0a; x09]) |}) None
  /\ otherFinal (psi (learner (fst (advance Wire.codec reEncRequest
                                      (fresh 0 0 true)))))
     = Some [x0a; x09].
Proof.
  pose proof (MsgPsiReEnc_reply Wire.codec reEncRequest (fresh 0 0 true)
                {| req_TaskID := "task"; EncIDs := [x09; x0a] |}
                {| ownFinal := None; otherFinal := None |}
                [x0a; x09]
                eq_refl eq_refl eq_refl) as T.
  cbv zeta in T. destruct T as (_ & _ & T).
  assert (E : Marshal Wire.codec
                (reEncReply (learner (fresh 0 0 true)) (From reEncRequest)
                   [x0a; x09])
              = inl (Wire.payload_of
                       (reEncReply (learner (fresh 0 0 true)) "B"
                          [x0a; x09])))
    by (vm_compute; reflexivity).
  rewrite E in T. destruct T as (Tret & Tpsi & _).
  split; [reflexivity|]. split; [exact Tret|].
  rewrite Tpsi. reflexivity.
Defined.

(** C8 fails as stated: for a Learner whose task id is not UTF-8 the
    request of the peer is re-encrypted, but the reply does not serialize;
    [advance] returns no response, only the Internal error, and starts a
    [handleError]. *)
Lemma MsgPsiReEnc_without_response :
  Unmarshal Wire.codec (Wire.payload_of reEncRequest) = inl reEncRequest
  /\ ReEncryptIDSet (psi (learner (freshAs badId))) (From reEncRequest)
       [x09; x0a]
     = (psi (learner (freshAs badId)), inl [x0a; x09])
  /\ Marshal Wire.codec
       (reEncReply (learner (freshAs badId)) (From reEncRequest) [x0a; x09])
     = inr (errorx_New (ErrCodeOf "proto")
              "string field contains invalid UTF-8")
  /\ snd (advance Wire.codec reEncRequest (freshAs badId))
     = Return None
         (Some (errorx_New ErrCodeInternal
                  "failed to Marshal payload: string field contains invalid UTF-8"))
  /\ pool (fst (advance Wire.codec reEncRequest (freshAs badId)))
     = pool (freshAs badId)
       ++ [GoHandleError
             (errorx_New ErrCodeInternal
                "failed to Marshal payload: string field contains invalid UTF-8")].
Proof. repeat split; vm_compute; reflexivity. Qed.

(** C7 fails as stated: the Learner is unchanged by a payload that does not
    deserialize (the single byte [0xff], a field tag cut short), so the
    Param error is returned but no result is posted and no [handleError]
    started; and a message of an unlisted type is accepted without any
    error. *)
Lemma Advance_posts_nothing :
  Advance Wire.codec [xff] (fresh 0 0 true)
  = (fresh 0 0 true,
     Return None
       (Some (errorx_New ErrCodeParam
                "failed to Unmarshal payload: unexpected EOF")))
  /\ option_map MsgType (Wire.decode unlistedPayload)
     = Some (MessageType_Unlisted 99)
  /\ Advance Wire.codec unlistedPayload (fresh 0 0 true)
     = (fresh 0 0 true, Return None None)
  /\ rh (learner (fresh 0 0 true)) = []
  /\ List.length (pool (fresh 0 0 true)) = 1%nat.
Proof. repeat split; vm_compute; reflexivity. Qed.

Lemma Advance_unusable_input_witness :
  Unmarshal Wire.codec [xff]
  = inr (errorx_New (ErrCodeOf "proto") "unexpected EOF")
  /\ Advance Wire.codec [xff] (fresh 0 0 true)
     = (fresh 0 0 true,
        Return None
          (Some (errorx_New ErrCodeParam
                   ("failed to Unmarshal payload: "
                      ++ Error (errorx_New (ErrCodeOf "proto")
                                  "unexpected EOF"))%string))).
Proof.
  split; [reflexivity|].
  apply (proj1 (Advance_unusable_input Wire.codec (fresh 0 0 true))).
  reflexivity.
Defined.

(** The empty payload, by contrast, is a message: the one with every field
    at its zero value, which [Advance] handles as a [MsgPsiEnc]. *)
Example Advance_empty_payload :
  Unmarshal Wire.codec [] = inl emptyMessage
  /\ MsgType emptyMessage = MessageType_MsgPsiEnc
  /\ Advance Wire.codec [] (fresh 0 0 true)
     = advance Wire.codec emptyMessage (fresh 0 0 true).
Proof. repeat split. Qed.

Lemma sendMessageWithRetry_attempts_witness :
  succeeded (sendMessage Wire.codec homoPubkeyMessage "B" (fresh 2 0 true))
  = false
  /\ sendCalls (fst (sendMessageWithRetry Wire.codec homoPubkeyMessage "B"
                       (fresh 2 0 true))) = 3%nat
  /\ snd (sendMessageWithRetry Wire.codec homoPubkeyMessage "B"
            (fresh 2 0 true)) = (Some emptyMessage, None).
Proof.
  pose proof (sendMessageWithRetry_attempts Wire.codec homoPubkeyMessage "B"
                (fresh 2 0 true)) as T.
  cbv zeta in T. destruct T as (_ & _ & _ & T3).
  destruct (T3 eq_refl eq_refl) as [Tout Tcalls].
  split; [reflexivity|]. split; [exact Tcalls|].
  rewrite Tout. reflexivity.
Defined.

(** C4 fails as stated: in round 1, with training started, a
    [MsgTrainLoop] of round 0 is accepted and [loopRound] goes back to 0. *)
Lemma loopRound_reset_in_round_one :
  rounds roundReset (fresh 0 5 true)
  = Some [0; 0; 0; 0; 0; 0; 0; 0; 0; 0; 0; 0; 0; 0; 0; 0; 1; 0]%Z
  /\ option_map (fun w => status (learner w)) (run roundOne (fresh 0 5 true))
     = Some learnerStatusStartTrain
  /\ Unmarshal Wire.codec (peerRound MessageType_MsgTrainLoop 0)
     = inl resetLoop.
Proof. repeat split; vm_compute; reflexivity. Qed.

(** The same reset without any [MsgTrainLoop] from outside: the second
    [MsgPsiIntersect] of C2 leads to a second [MsgTrainHup], which posts
    round 0 again. *)
Example loopRound_reset_by_second_hup :
  rounds secondHup (fresh 0 5 true)
  = Some [0; 0; 0; 0; 0; 0; 0; 0; 0; 0; 0; 0; 0; 0; 0; 0; 1; 1; 1; 0]%Z.
Proof. vm_compute. reflexivity. Qed.

Lemma loopRound_moves_witness :
  MsgType resetLoop = MessageType_MsgTrainLoop
  /\ loopRound (learner (after roundOne (fresh 0 5 true))) = 1%Z
  /\ loopRound (learner (fst (advance Wire.codec resetLoop
                                (after roundOne (fresh 0 5 true)))))
     = LoopRound resetLoop.
Proof.
  split; [reflexivity|]. split; [vm_compute; reflexivity|].
  exact (proj1 (loopRound_moves Wire.codec) resetLoop
           (after roundOne (fresh 0 5 true)) eq_refl).
Defined.

(** C5 fails as stated: a [MsgTrainModels] that finds [status ==
    StartTrain] but a process without a model sets [status] to EndTrain and
    saves nothing; the only result ever saved is the failure reported by the
    goroutine it starts. *)
Lemma MsgTrainModels_without_success :
  status (learner (after modelsPosted (fresh 0 0 false)))
  = learnerStatusStartTrain
  /\ status (learner (fst (advance Wire.codec trainModels
                             (after modelsPosted (fresh 0 0 false)))))
     = learnerStatusEndTrain
  /\ rh (learner (fst (advance Wire.codec trainModels
                         (after modelsPosted (fresh 0 0 false))))) = []
  /\ snd (advance Wire.codec trainModels
            (after modelsPosted (fresh 0 0 false)))
     = Return None (Some (errorx_New (ErrCodeOf "process") "no model"))
  /\ saved modelsReported (fresh 0 0 false)
     = Some [ {| TaskID := "task"; Success := false; Model := [];
                 ErrMsg := "no model" |} ].
Proof. repeat split; vm_compute; reflexivity. Qed.

Lemma MsgTrainModels_guard_witness :
  MsgType trainModels = MessageType_MsgTrainModels
  /\ status (learner (after modelsPosted (fresh 0 0 true)))
     = learnerStatusStartTrain
  /\ rh (learner (fst (advance Wire.codec trainModels
                         (after modelsPosted (fresh 0 0 true)))))
     = [ {| TaskID := "task"; Success := true; Model := [x2a];
            ErrMsg := "" |} ]
  /\ advance Wire.codec trainModels (after modelsReached (fresh 0 0 true))
     = (after modelsReached (fresh 0 0 true), Return None None).
Proof.
  pose proof (MsgTrainModels_guard Wire.codec trainModels
                (after modelsPosted (fresh 0 0 true)) eq_refl) as T1.
  pose proof (MsgTrainModels_guard Wire.codec trainModels
                (after modelsReached (fresh 0 0 true)) eq_refl) as T2.
  destruct T1 as (_ & T1 & _). destruct T2 as (T2 & _).
  split; [reflexivity|]. split; [vm_compute; reflexivity|]. split.
  - rewrite (T1 eq_refl (process (learner (after modelsPosted
                                             (fresh 0 0 true))))
               [x2a] eq_refl).
    vm_compute. reflexivity.
  - apply T2. vm_compute. discriminate.
Defined.

(* --------------------------------------------------------------------- *)
(** ** Instances of the further properties *)
(* --------------------------------------------------------------------- *)

Lemma sendMessageWithRetry_unserializable_witness :
  Marshal Wire.codec (withRoute "A" "B" oversized)
  = inr (errorx_New (ErrCodeOf "proto") "field out of range")
  /\ rpc (learner (fst (sendMessageWithRetry Wire.codec oversized "B"
                          (fresh 0 0 true)))) = 0%nat
  /\ sendCalls (fst (sendMessageWithRetry Wire.codec oversized "B"
                       (fresh 0 0 true))) = 3%nat.
Proof.
  split; [vm_compute; reflexivity|].
  rewrite (sendMessageWithRetry_unserializable Wire.codec oversized "B"
             (fresh 0 0 true)
             (errorx_New (ErrCodeOf "proto") "field out of range"));
    [split; reflexivity | vm_compute; reflexivity].
Defined.

Lemma errors_are_reported_witness :
  advance Wire.codec badRequest (fresh 0 0 true)
  = (fst (advance Wire.codec badRequest (fresh 0 0 true)),
     Return None
       (Some (errorx_New (ErrCodeOf "psi") "empty identifier set")))
  /\ pool (fst (advance Wire.codec badRequest (fresh 0 0 true)))
     = pool (fresh 0 0 true)
       ++ [GoHandleError
             (errorx_New (ErrCodeOf "psi") "empty identifier set")].
Proof.
  assert (E : advance Wire.codec badRequest (fresh 0 0 true)
              = (fst (advance Wire.codec badRequest (fresh 0 0 true)),
                 Return None
                   (Some (errorx_New (ErrCodeOf "psi")
                            "empty identifier set"))))
    by (vm_compute; reflexivity).
  split; [exact E|].
  exact (proj1 (proj2 (errors_are_reported Wire.codec badRequest
                         (fresh 0 0 true) _ None _ E))).
Defined.

Lemma config_is_fixed_witness :
  exec Wire.codec modelsReached (fresh 0 0 true)
  = Some (after modelsReached (fresh 0 0 true))
  /\ sameConfig (learner (fresh 0 0 true))
       (learner (after modelsReached (fresh 0 0 true))).
Proof.
  split; [vm_compute; reflexivity|].
  apply (config_is_fixed Wire.codec modelsReached). vm_compute. reflexivity.
Defined.

Lemma fileRows_written_by_intersect_witness :
  MsgType hup <> MessageType_MsgPsiIntersect
  /\ fileRows (learner (fst (advance Wire.codec hup
                              (after psiFinished (fresh 0 0 true)))))
     = fileRows (learner (after psiFinished (fresh 0 0 true))).
Proof.
  assert (Ht : MsgType hup <> MessageType_MsgPsiIntersect) by discriminate.
  split; [exact Ht|].
  exact (fileRows_written_by_intersect Wire.codec hup
           (after psiFinished (fresh 0 0 true)) Ht).
Defined.

Lemma infallible_cases_witness :
  infallible (MsgType staleStatus) = true
  /\ rh (learner (fst (advance Wire.codec staleStatus (fresh 0 0 true))))
     = rh (learner (fresh 0 0 true)).
Proof.
  split; [reflexivity|].
  exact (proj1 (proj2 (infallible_cases Wire.codec staleStatus
                         (fresh 0 0 true) eq_refl))).
Defined.

Lemma stale_local_round_dropped_witness :
  roundGuardedLocal (MsgType staleCalLocal) = true
  /\ LoopRound staleCalLocal <> loopRound (learner (fresh 0 0 true))
  /\ advance Wire.codec staleCalLocal (fresh 0 0 true)
     = (fresh 0 0 true, Return None None).
Proof.
  assert (Hr : LoopRound staleCalLocal <> loopRound (learner (fresh 0 0 true)))
    by (vm_compute; discriminate).
  split; [reflexivity|]. split; [exact Hr|].
  exact (stale_local_round_dropped Wire.codec staleCalLocal (fresh 0 0 true)
           eq_refl Hr).
Defined.

Lemma MsgTrainHup_once_witness :
  MsgType hup = MessageType_MsgTrainHup
  /\ status (learner (after psiFinished (fresh 0 0 true)))
     = learnerStatusEndPSI
  /\ status (learner (fst (advance Wire.codec hup
                             (after psiFinished (fresh 0 0 true)))))
     = learnerStatusStartTrain
  /\ advance Wire.codec hup
       (fst (advance Wire.codec hup (after psiFinished (fresh 0 0 true))))
     = (fst (advance Wire.codec hup (after psiFinished (fresh 0 0 true))),
        Return None None).
Proof.
  split; [reflexivity|]. split; [vm_compute; reflexivity|].
  split; [vm_compute; reflexivity|].
  exact (MsgTrainHup_once Wire.codec hup hup
           (after psiFinished (fresh 0 0 true)) eq_refl eq_refl).
Defined.

Lemma advance_does_not_panic_witness :
  parties (learner (fresh 0 0 true)) <> []
  /\ MsgType hup <> MessageType_MsgPsiAskReEnc
  /\ snd (advance Wire.codec hup (fresh 0 0 true)) <> Panic.
Proof.
  assert (Hp : parties (learner (fresh 0 0 true)) <> [])
    by (vm_compute; discriminate).
  assert (Ht : MsgType hup <> MessageType_MsgPsiAskReEnc) by discriminate.
  split; [exact Hp|]. split; [exact Ht|].
  apply (advance_does_not_panic Wire.codec hup (fresh 0 0 true) Hp Ht).
  discriminate.
Defined.

Lemma MsgPsiAskReEnc_empty_answer_witness :
  MsgType askWithoutRequest = MessageType_MsgPsiAskReEnc
  /\ parties (learner (fresh 0 0 true)) = ["B"]
  /\ snd (advance Wire.codec askWithoutRequest (fresh 0 0 true)) = Panic.
Proof.
  split; [reflexivity|]. split; [reflexivity|].
  apply (MsgPsiAskReEnc_empty_answer Wire.codec askWithoutRequest
           (fresh 0 0 true) "B" []
           (Wire.payload_of
              (withRoute "A" "B" (newMessage MessageType_MsgPsiReEnc)))
           0%nat {| tresp_TaskID := "task"; tresp_Payload := [] |});
    vm_compute; reflexivity.
Defined.

Lemma results_are_appended_witness :
  exec Wire.codec modelsReported (fresh 0 0 false)
  = Some (after modelsReported (fresh 0 0 false))
  /\ exists suffix,
       rh (learner (after modelsReported (fresh 0 0 false)))
       = rh (learner (fresh 0 0 false)) ++ suffix
       /\ Forall (resultOf (learner (fresh 0 0 false))) suffix.
Proof.
  split; [vm_compute; reflexivity|].
  apply (results_are_appended Wire.codec modelsReported).
  vm_compute. reflexivity.
Defined.

Lemma status_moves_witness :
  trace Wire.codec lateIntersect (fresh 0 0 true)
  = Some (worlds lateIntersect (fresh 0 0 true))
  /\ statusMoves (worlds lateIntersect (fresh 0 0 true)).
Proof.
  split; [vm_compute; reflexivity|].
  apply (status_moves Wire.codec lateIntersect (fresh 0 0 true)).
  vm_compute. reflexivity.
Defined.

End LearnerFacts.
